(** * NexusSDK: proxy-aware transport, tasks and the account orchestrator

    A shallow embedding of the Go packages [types], [httpclient], [tasks]
    and [handler] of nexus-telegram/NexusSDK, and the properties of the
    transport construction, the request error mapping, the task bodies,
    the retry-with-refresh sequence and the task scheduler.

    Conventions of the embedding:
    - a Go [string] and the contents of a [[]byte] are Rocq strings (byte
      sequences); a [[]byte] value is a [byteSlice], which keeps the
      difference between the nil slice and an empty one;
    - a Go [int] is a [Z]; the only arithmetic in the code, the timeout in
      nanoseconds, has its 64-bit wrap-around written out;
    - a Go [error] value is an [error], and [None] is the nil error; a
      function returning a byte slice and an error returns the pair,
      since the code tests either component for nil; a function
      returning a pointer and an error, all of whose returns give exactly
      one of the two, returns the sum, as library calls do;
    - closing a response body and stopping a ticker have no effect that
      the code or the properties observe, and are left out;
    - the behaviour of the Go libraries the code calls (encoding/json,
      net/http, x/net/proxy) is the interface [GoLib];
    - network traffic and standard output are threaded through a [World]. *)

From Stdlib Require Import ZArith List String Ascii Bool Lia DecimalString.
Import ListNotations.

Local Open Scope string_scope.
Local Open Scope Z_scope.

Set Implicit Arguments.

(** ** Go values *)

(** A Go error: [errors.New] and [fmt.Errorf] without [%w] build an
    [errorString]; [fmt.Errorf] with [%w] keeps the wrapped error. *)
Inductive error : Type :=
| errorString (msg : string)
| wrapError (msg : string) (inner : error).

(** [err.Error()] *)
Definition Error (e : error) : string :=
  match e with
  | errorString m => m
  | wrapError m _ => m
  end.

(** [errors.Unwrap(err)] *)
Definition errors_Unwrap (e : error) : option error :=
  match e with
  | errorString _ => None
  | wrapError _ inner => Some inner
  end.

(** [errors.New(text)] *)
Definition errors_New (text : string) : error := errorString text.

(** A [[]byte]: the nil slice, or a slice with contents. *)
Inductive byteSlice : Type :=
| nilSlice
| slice (data : string).

(** [b != nil] *)
Definition notNil (b : byteSlice) : bool :=
  match b with
  | nilSlice => false
  | slice _ => true
  end.

(** [string(b)] *)
Definition string_of_bytes (b : byteSlice) : string :=
  match b with
  | nilSlice => ""
  | slice d => d
  end.

(** The verb [%d] of package fmt on an [int]. *)
Definition fmt_d (n : Z) : string := NilZero.string_of_int (Z.to_int n).

(** Two's-complement wrap-around of 64-bit signed arithmetic. *)
Definition wrap64 (z : Z) : Z := (z + 2 ^ 63) mod 2 ^ 64 - 2 ^ 63.

(** [s != ""] *)
Definition nonEmpty (s : string) : bool :=
  match s with
  | EmptyString => false
  | String _ _ => true
  end.

(** ** Package types *)

Module types.

(** [types.Proxy] *)
Record Proxy : Type := mkProxy {
  Ip : string;
  Port : Z;
  Username : string;
  Password : string;
  SocksType : Z;
  Timeout : Z
}.

(** [types.TelegramData] *)
Record TelegramData : Type := mkTelegramData {
  TdataStringSession : string;
  AppId : string;
  AppHash : string;
  TelegramId : string
}.

(** [types.Account]; the embedded field [TelegramData] is [Telegram]
    here, after its json tag. *)
Record Account : Type := mkAccount {
  GameData : string;
  Telegram : TelegramData
}.

(** The zero value [types.Proxy{}]. *)
Definition zeroProxy : Proxy := mkProxy "" 0 "" "" 0 0.

(** [types.Config]; the fields [Proxy] and [APIKey]. *)
Record Config : Type := mkConfig {
  ConfigProxy : Proxy;
  ConfigAPIKey : string
}.

(** The zero value [types.Config{}]. *)
Definition zeroConfig : Config := mkConfig zeroProxy "".

End types.

(** [handler.GameDataRequest], the body of the refresh call.  It is
    declared in package handler; it stands here, in a module of its own,
    because the interface of encoding/json below mentions it. *)
Module gamedata.
Record GameDataRequest : Type := mkGameDataRequest {
  Game : string;
  Telegram : types.TelegramData;
  APIKey : string;
  Proxy : types.Proxy
}.
End gamedata.

(** ** Values of net/http, io and x/net/proxy *)

(** [proxy.Auth] *)
Record Auth : Type := mkAuth {
  User : string;
  AuthPassword : string
}.

(** The dialer [proxy.SOCKS5(network, address, auth, proxy.Direct)]. *)
Record Dialer : Type := mkDialer {
  dialNetwork : string;
  dialAddress : string;
  dialAuth : option Auth
}.

(** [http.Transport]: the zero value dials directly; the other one dials
    through the SOCKS dialer captured by its [DialContext]. *)
Inductive Transport : Type :=
| directTransport
| dialerTransport (dialer : Dialer).

(** [http.Client], with the timeout in nanoseconds ([time.Duration]). *)
Record Client : Type := mkClient {
  clientTransport : Transport;
  clientTimeout : Z
}.

(** [time.Second] *)
Definition time_Second : Z := 1000000000.

(** [http.Request], as far as the code fills it. *)
Record Request : Type := mkRequest {
  Method : string;
  URL : string;
  RequestBody : byteSlice;
  Header : list (string * string)
}.

(** An [io.ReadCloser] over a response body: the bytes that arrive, and
    the error, if any, that ends the reading instead of EOF. *)
Record ReadCloser : Type := mkReadCloser {
  content : string;
  readError : option error
}.

(** [io.ReadAll]: the bytes read, always in a non-nil slice, and the
    read error. *)
Definition io_ReadAll (r : ReadCloser) : byteSlice * option error :=
  (slice (content r), readError r).

(** [http.Response] *)
Record Response : Type := mkResponse {
  StatusCode : Z;
  Body : ReadCloser
}.

Definition http_MethodGet : string := "GET".
Definition http_MethodPost : string := "POST".

(** ** The Go libraries behind the code

    What the code needs of encoding/json, net/http, net/textproto and
    x/net/proxy, at the types it uses them at.  [json.Marshal] of a
    [GameDataRequest], a struct of strings and ints, cannot fail, so it
    is a total function and the unreachable error branch of
    [refreshGameData] has no counterpart below. *)
Class GoLib : Type := {
  (** the type of a task payload, [map[string]interface{}] *)
  PayloadMap : Type;
  (** [json.Marshal] of a payload: the encoding, or the error *)
  json_Marshal : PayloadMap -> string + error;
  (** [json.Marshal] of a [GameDataRequest] *)
  json_Marshal_request : gamedata.GameDataRequest -> string;
  (** the error of [http.NewRequest] for a method and a URL, if any *)
  http_NewRequest_error : string -> string -> option error;
  (** [textproto.CanonicalMIMEHeaderKey] *)
  CanonicalMIMEHeaderKey : string -> string;
  (** the error of [proxy.SOCKS5] for a network, an address and the
      credentials, if any *)
  proxy_SOCKS5_error : string -> string -> option Auth -> option error
}.

(** [http.NewRequest(method, url, bytes.NewBuffer(body))] *)
Definition http_NewRequest `{GoLib} (method url : string) (body : byteSlice)
  : Request + error :=
  match http_NewRequest_error method url with
  | Some err => inr err
  | None => inl (mkRequest method url body [])
  end.

(** [req.Header.Set(key, value)] *)
Definition Header_Set `{GoLib} (req : Request) (key value : string) : Request :=
  let k := CanonicalMIMEHeaderKey key in
  mkRequest (Method req) (URL req) (RequestBody req)
    ((k, value) :: filter (fun kv => negb (String.eqb (fst kv) k)) (Header req)).

(** [proxy.SOCKS5(network, address, auth, proxy.Direct)] *)
Definition proxy_SOCKS5 `{GoLib} (network address : string) (auth : option Auth)
  : Dialer + error :=
  match proxy_SOCKS5_error network address auth with
  | Some err => inr err
  | None => inl (mkDialer network address auth)
  end.

(** ** The rest of the environment

    The files the loaders read and what encoding/json decodes from
    them, [json.Unmarshal] at the type of the value a response body is
    parsed into, and [zap.NewProduction]. *)
Class GoEnv : Type := {
  (** [os.Open]: the file, given by its contents, or the error *)
  os_Open : string -> string + error;
  (** [json.NewDecoder(file).Decode(&config)] on a zero [types.Config]:
      the value the decoder leaves and its error *)
  json_Decode_Config : string -> types.Config * option error;
  (** the same into a nil [[]types.Account] *)
  json_Decode_Accounts : string -> list types.Account * option error;
  (** the type of the value [ReadResponseBody] parses into *)
  Target : Type;
  (** [json.Unmarshal(body, v)]: the value left in [v] and the error *)
  json_Unmarshal : string -> Target -> Target * option error;
  (** [*zap.Logger] *)
  Logger : Type;
  (** [zap.NewProduction()] *)
  zap_NewProduction : Logger + error
}.

(** ** The world outside the program *)

(** A line written by [fmt.Printf] or [log.Printf], by the call that
    writes it. *)
Inductive Output `{GoLib} : Type :=
| RunningOneTime (name telegramId : string) (payload : PayloadMap)
| ExecutedOneTime (name telegramId : string) (response : byteSlice)
| RunningRecurrent (name telegramId : string) (payload : PayloadMap)
| ExecutedRecurrent (name telegramId : string) (response : byteSlice)
| ErrorOneTime (telegramId : string) (err : error)
| ErrorRecurrent (telegramId : string) (err : error).

(** The outcome of one round trip of [http.Client.Do]: a response, or a
    transport error (DNS, dial, TLS, timeout). *)
Definition RoundTrip : Type := (Response + error)%type.

(** The world: how the network answers the n-th request made through a
    client, the requests made so far (oldest first) and the lines printed
    so far (oldest first). *)
Record World `{GoLib} : Type := mkWorld {
  network : Client -> nat -> Request -> RoundTrip;
  wire : list Request;
  printed : list Output
}.

(** Effectful code is a state transformer over the world. *)
Definition M `{GoLib} (A : Type) : Type := World -> A * World.

Definition ret `{GoLib} {A : Type} (a : A) : M A := fun w => (a, w).

Definition bind `{GoLib} {A B : Type} (m : M A) (k : A -> M B) : M B :=
  fun w => let (a, w') := m w in k a w'.

Notation "x <- m ;; k" := (bind m (fun x => k))
  (at level 61, m at next level, right associativity).
Notation "m ;;; k" := (bind m (fun _ => k))
  (at level 61, right associativity).

(** [fmt.Printf] and [log.Printf] *)
Definition Printf `{GoLib} (line : Output) : M unit :=
  fun w => (tt, mkWorld (network w) (wire w) (printed w ++ [line])).

(** [client.Do(req)] *)
Definition client_Do `{GoLib} (c : Client) (req : Request) : M RoundTrip :=
  fun w =>
    (network w c (List.length (wire w)) req,
     mkWorld (network w) (wire w ++ [req]) (printed w)).

(** ** Package httpclient *)

Module httpclient.
Import types.

(** [httpclient.HTTPClient] *)
Record HTTPClient : Type := mkHTTPClient {
  client : Client;
  proxy : types.Proxy;
  headers : list (string * string)
}.

Section WithLib.
Context {L : GoLib}.

(** [NewHTTPClient]: the branch on the proxy settings yields either
    the transport or the error returned early; the timeout and the
    client follow. *)
Definition NewHTTPClient (proxyConfig : types.Proxy) : HTTPClient + error :=
  let transport : Transport + error :=
    if nonEmpty (Ip proxyConfig) && (Port proxyConfig >? 0) then
      let proxyAddress := Ip proxyConfig ++ ":" ++ fmt_d (Port proxyConfig) in
      if SocksType proxyConfig =? 5 then
        let dialer :=
          if nonEmpty (Username proxyConfig) && nonEmpty (Password proxyConfig) then
            let auth := mkAuth (Username proxyConfig) (Password proxyConfig) in
            proxy_SOCKS5 "tcp" proxyAddress (Some auth)
          else
            proxy_SOCKS5 "tcp" proxyAddress None in
        match dialer with
        | inr err =>
            inr (errorString ("failed to create SOCKS dialer: " ++ Error err))
        | inl dialer => inl (dialerTransport dialer)
        end
      else if SocksType proxyConfig =? 4 then
        inr (errorString "SOCKS4 proxy is not supported in this implementation")
      else
        inr (errorString ("invalid SOCKS type: " ++ fmt_d (SocksType proxyConfig)))
    else
      inl directTransport in
  match transport with
  | inr err => inr err
  | inl transport =>
      let timeout :=
        if Timeout proxyConfig >? 0
        then wrap64 (Timeout proxyConfig * time_Second)
        else 10 * time_Second in
      inl (mkHTTPClient (mkClient transport timeout) zeroProxy [])
  end.

(** [DoRequest] *)
Definition DoRequest (httpClient : HTTPClient) (method url : string)
    (body : byteSlice) : M (Response + error) :=
  match http_NewRequest method url body with
  | inr err => ret (inr err)
  | inl req =>
      let req :=
        fold_left (fun r kv => Header_Set r (fst kv) (snd kv))
                  (headers httpClient) req in
      r <- client_Do (client httpClient) req ;;
      match r with
      | inr err => ret (inr err)
      | inl resp =>
          if (StatusCode resp <? 200) || (StatusCode resp >=? 300) then
            let '(responseBody, _) := io_ReadAll (Body resp) in
            ret (inr (errors_New (string_of_bytes responseBody)))
          else
            ret (inl resp)
      end
  end.

(** [Get] *)
Definition Get (httpClient : HTTPClient) (url : string)
  : M (Response + error) :=
  DoRequest httpClient http_MethodGet url nilSlice.

(** [Post] *)
Definition Post (httpClient : HTTPClient) (url : string) (body : byteSlice)
  : M (Response + error) :=
  DoRequest httpClient http_MethodPost url body.

(** [ReadResponseBody]: the string and the error it returns, and the
    value left in [v]. *)
Definition ReadResponseBody {E : GoEnv} (resp : Response) (v : Target)
  : (string * option error) * Target :=
  match io_ReadAll (Body resp) with
  | (_, Some err) => (("", Some err), v)
  | (body, None) =>
      let '(v, err) := json_Unmarshal (string_of_bytes body) v in
      match err with
      | Some _ => ((string_of_bytes body, None), v)
      | None => (("", None), v)
      end
  end.

End WithLib.
End httpclient.

(** ** Package tasks *)

Module tasks.
Import types.

(** [tasks.BaseTask] *)
Record BaseTask `{GoLib} : Type := mkBaseTask {
  Name : string;
  Payload : PayloadMap
}.

Arguments mkBaseTask {_} _ _.

(** [tasks.OneTimeTask] *)
Record OneTimeTask `{GoLib} : Type := mkOneTimeTask {
  oneTimeBase : BaseTask
}.

(** [tasks.RecurrentTask]; the interval is a [time.Duration]. *)
Record RecurrentTask `{GoLib} : Type := mkRecurrentTask {
  recurrentBase : BaseTask;
  Interval : Z
}.

(** The interface [tasks.Handler]. *)
Class Handler `{GoLib} (H : Type) : Type := {
  Post : H -> string -> byteSlice -> M (byteSlice * option error);
  GetBaseURL : H -> string;
  GetAccounts : H -> list Account
}.

Section WithLib.
Context {L : GoLib}.

(** [NewOneTimeTask] *)
Definition NewOneTimeTask (name : string) (payload : PayloadMap) : OneTimeTask :=
  mkOneTimeTask (mkBaseTask name payload).

(** [NewRecurrentTask] *)
Definition NewRecurrentTask (name : string) (payload : PayloadMap)
    (interval : Z) : RecurrentTask :=
  mkRecurrentTask (mkBaseTask name payload) interval.

(** [OneTimeTask.Run] *)
Definition OneTimeTask_Run {H : Type} {HH : Handler H}
    (task : OneTimeTask) (account : Account) (handler : H) : M (option error) :=
  let name := Name (oneTimeBase task) in
  let telegramId := TelegramId (Telegram account) in
  Printf (RunningOneTime name telegramId (Payload (oneTimeBase task))) ;;;
  let payload := Payload (oneTimeBase task) in
  match json_Marshal payload with
  | inr err =>
      ret (Some (wrapError
        ("failed to marshal payload for one-time task '" ++ name ++ "': "
           ++ Error err) err))
  | inl payloadBytes =>
      r <- Post handler (GetBaseURL handler) (slice payloadBytes) ;;
      match r with
      | (_, Some err) =>
          ret (Some (wrapError
            ("failed to execute one-time task '" ++ name ++ "' for account "
               ++ telegramId ++ ": " ++ Error err) err))
      | (response, None) =>
          Printf (ExecutedOneTime name telegramId response) ;;;
          ret None
      end
  end.

(** [RecurrentTask.Run] *)
Definition RecurrentTask_Run {H : Type} {HH : Handler H}
    (task : RecurrentTask) (account : Account) (handler : H) : M (option error) :=
  let name := Name (recurrentBase task) in
  let telegramId := TelegramId (Telegram account) in
  Printf (RunningRecurrent name telegramId (Payload (recurrentBase task))) ;;;
  let payload := Payload (recurrentBase task) in
  match json_Marshal payload with
  | inr err =>
      ret (Some (wrapError
        ("failed to marshal payload for recurrent task '" ++ name ++ "': "
           ++ Error err) err))
  | inl payloadBytes =>
      r <- Post handler (GetBaseURL handler) (slice payloadBytes) ;;
      match r with
      | (_, Some err) =>
          ret (Some (wrapError
            ("failed to execute recurrent task '" ++ name ++ "' for account "
               ++ telegramId ++ ": " ++ Error err) err))
      | (response, None) =>
          Printf (ExecutedRecurrent name telegramId response) ;;;
          ret None
      end
  end.

(** A value of the interface [tasks.Task]: the repository has these
    two implementations. *)
Inductive Task : Type :=
| OneTime (t : OneTimeTask)
| Recurrent (t : RecurrentTask).

(** [task.Run(account, handler)], dispatched on the dynamic type. *)
Definition Run {H : Type} {HH : Handler H}
    (task : Task) (account : Account) (handler : H) : M (option error) :=
  match task with
  | OneTime t => OneTimeTask_Run t account handler
  | Recurrent t => RecurrentTask_Run t account handler
  end.

End WithLib.
End tasks.

(** [l[i] = x] on a list, for an index within it. *)
Fixpoint replace {A : Type} (i : nat) (x : A) (l : list A) : list A :=
  match l, i with
  | [], _ => []
  | _ :: l', O => x :: l'
  | y :: l', S i' => y :: replace i' x l'
  end.

(** ** Package sync *)

(** [sync.Mutex] *)
Inductive Mutex : Type :=
| unlocked
| locked.

(** [mu.Lock()]: [None] when the mutex is held, where the caller waits. *)
Definition Lock (mu : Mutex) : option Mutex :=
  match mu with
  | unlocked => Some locked
  | locked => None
  end.

(** [mu.Unlock()]: [None] for the fatal error on a mutex that is not held. *)
Definition Unlock (mu : Mutex) : option Mutex :=
  match mu with
  | locked => Some unlocked
  | unlocked => None
  end.

(** ** Package handler *)

Module handler.
Import types.

(** [handler.GameHandler] *)
Record GameHandler `{GoLib} : Type := mkGameHandler {
  GameName : string;
  BaseURL : string;
  Proxy : types.Proxy;
  APIKey : string;
  Accounts : list Account;
  Tasks : list tasks.Task;
  HttpClient : httpclient.HTTPClient;
  mu : Mutex
}.

Section WithLib.
Context {L : GoLib}.

(** [refreshGameData] *)
Definition refreshGameData (client : httpclient.HTTPClient)
    (game apiKey : string) (telegram : TelegramData)
    (proxyConfig : types.Proxy) : M (byteSlice * option error) :=
  let nexusApiBaseURL := "http://34.95.182.203:1337/api" in
  let url := nexusApiBaseURL ++ "/telegram/game-data" in
  let requestBody := gamedata.mkGameDataRequest game telegram apiKey proxyConfig in
  let jsonData := json_Marshal_request requestBody in
  r <- httpclient.Post client url (slice jsonData) ;;
  match r with
  | inr err => ret (nilSlice, Some err)
  | inl resp =>
      match io_ReadAll (Body resp) with
      | (_, Some err) => ret (nilSlice, Some err)
      | (body, None) => ret (body, None)
      end
  end.

(** [GameHandler.Post] *)
Definition Post (handler : GameHandler) (url : string) (payload : byteSlice)
  : M (byteSlice * option error) :=
  r <- httpclient.Post (HttpClient handler) url payload ;;
  match r with
  | inr err => ret (nilSlice, Some err)
  | inl resp =>
      match io_ReadAll (Body resp) with
      | (_, Some err) => ret (nilSlice, Some err)
      | (body, None) => ret (body, None)
      end
  end.

(** [GameHandler.GetBaseURL] *)
Definition GetBaseURL (handler : GameHandler) : string := BaseURL handler.

(** [GameHandler.GetAccounts] *)
Definition GetAccounts (handler : GameHandler) : list Account :=
  Accounts handler.

(** [*GameHandler] implements [tasks.Handler]. *)
#[global] Instance GameHandler_Handler : tasks.Handler GameHandler := {
  tasks.Post := Post;
  tasks.GetBaseURL := GetBaseURL;
  tasks.GetAccounts := GetAccounts
}.

(** [GameHandler.SetBaseURL] *)
Definition SetBaseURL (handler : GameHandler) (url : string) : GameHandler :=
  mkGameHandler (GameName handler) url (Proxy handler) (APIKey handler)
    (Accounts handler) (Tasks handler) (HttpClient handler) (mu handler).

(** Assignment to [handler.mu] and to [handler.Tasks]. *)
Definition withMu (handler : GameHandler) (m : Mutex) : GameHandler :=
  mkGameHandler (GameName handler) (BaseURL handler) (Proxy handler)
    (APIKey handler) (Accounts handler) (Tasks handler) (HttpClient handler) m.

Definition withTasks (handler : GameHandler) (ts : list tasks.Task)
  : GameHandler :=
  mkGameHandler (GameName handler) (BaseURL handler) (Proxy handler)
    (APIKey handler) (Accounts handler) ts (HttpClient handler) (mu handler).

(** [GameHandler.AddTask]: the handler when the call returns, [None]
    when it does not (the mutex is held). *)
Definition AddTask (handler : GameHandler) (task : tasks.Task)
  : option GameHandler :=
  match Lock (mu handler) with
  | None => None
  | Some m =>
      let handler := withMu handler m in
      let handler := withTasks handler (Tasks handler ++ [task]) in
      match Unlock (mu handler) with
      | None => None
      | Some m => Some (withMu handler m)
      end
  end.

(** *** Calls of [AddTask] running at once

    A call of [AddTask] in progress is at one of its statements: before
    [handler.mu.Lock()]; holding the mutex, before the read of
    [handler.Tasks] for [append]; holding the slice read, before the
    assignment to [handler.Tasks]; before the deferred
    [handler.mu.Unlock()]; or returned. *)
Inductive AddTaskCall : Type :=
| AtLock (task : tasks.Task)
| AtRead (task : tasks.Task)
| AtWrite (task : tasks.Task) (old : list tasks.Task)
| AtUnlock
| Finished.

(** The next statement of a call: the handler and the call after it,
    [None] when the call cannot move (it waits for the mutex, or is
    over). *)
Definition advance (handler : GameHandler) (c : AddTaskCall)
  : option (GameHandler * AddTaskCall) :=
  match c with
  | AtLock task =>
      match Lock (mu handler) with
      | None => None
      | Some m => Some (withMu handler m, AtRead task)
      end
  | AtRead task => Some (handler, AtWrite task (Tasks handler))
  | AtWrite task old => Some (withTasks handler (old ++ [task]), AtUnlock)
  | AtUnlock =>
      match Unlock (mu handler) with
      | None => None
      | Some m => Some (withMu handler m, Finished)
      end
  | Finished => None
  end.

(** The calls under a schedule, the list of the indices of the calls
    that are given a turn, in order. *)
Fixpoint interleave (handler : GameHandler) (calls : list AddTaskCall)
    (schedule : list nat) : GameHandler * list AddTaskCall :=
  match schedule with
  | [] => (handler, calls)
  | i :: schedule' =>
      match nth_error calls i with
      | None => interleave handler calls schedule'
      | Some c =>
          match advance handler c with
          | None => interleave handler calls schedule'
          | Some (handler', c') =>
              interleave handler' (replace i c' calls) schedule'
          end
      end
  end.

Definition isFinished (c : AddTaskCall) : bool :=
  match c with
  | Finished => true
  | _ => false
  end.

(** [GameHandler.runTaskWithRetry] *)
Definition runTaskWithRetry (handler : GameHandler) (account : Account)
    (task : tasks.Task) : M (option error) :=
  err <- tasks.Run task account handler ;;
  match err with
  | Some _ =>
      r <- refreshGameData (HttpClient handler) (GameName handler)
             (APIKey handler) (Telegram account) (Proxy handler) ;;
      let '(refreshErr, _) := r in
      if notNil refreshErr then ret None
      else
        retryErr <- tasks.Run task account handler ;;
        match retryErr with
        | Some _ => ret None
        | None => ret None
        end
  | None => ret None
  end.

(** *** [GameHandler.RunTasks]

    [RunTasks] starts one goroutine per account and waits for all of
    them.  A goroutine is at one of four places: ranging over the task
    list with some tasks left; inside the function literal run for a
    recurrent task, waiting on its ticker; stopped by the panic of
    [time.NewTicker] on a non-positive interval; or returned, its
    deferred [wg.Done()] called. *)
Inductive Goroutine : Type :=
| Ranging (account : Account) (rest : list tasks.Task)
| Ticking (account : Account) (task : tasks.RecurrentTask)
          (rest : list tasks.Task)
| Panicked (account : Account)
| Returned (account : Account).

(** One step of a goroutine: the body of the range loop for the next
    task, or one tick of the ticker it waits on. *)
Definition step (handler : GameHandler) (g : Goroutine) : M Goroutine :=
  match g with
  | Ranging account [] => ret (Returned account)
  | Ranging account (tasks.OneTime t :: rest) =>
      err <- runTaskWithRetry handler account (tasks.OneTime t) ;;
      match err with
      | Some err => Printf (ErrorOneTime (TelegramId (Telegram account)) err)
      | None => ret tt
      end ;;;
      ret (Ranging account rest)
  | Ranging account (tasks.Recurrent t :: rest) =>
      if tasks.Interval t <=? 0 then ret (Panicked account)
      else ret (Ticking account t rest)
  | Ticking account t rest =>
      err <- runTaskWithRetry handler account (tasks.Recurrent t) ;;
      match err with
      | Some err => Printf (ErrorRecurrent (TelegramId (Telegram account)) err)
      | None => ret tt
      end ;;;
      ret (Ticking account t rest)
  | Panicked account => ret (Panicked account)
  | Returned account => ret (Returned account)
  end.

Definition isReturned (g : Goroutine) : bool :=
  match g with
  | Returned _ => true
  | _ => false
  end.

Definition isPanicked (g : Goroutine) : bool :=
  match g with
  | Panicked _ => true
  | _ => false
  end.

(** The goroutines [RunTasks] starts, one per account, each about to
    range over [handler.Tasks]. *)
Definition spawn (handler : GameHandler) : list Goroutine :=
  map (fun account => Ranging account (Tasks handler)) (Accounts handler).

(** The goroutines after a schedule, the list of the indices of the
    goroutines that take a step, in order.  An unrecovered panic ends
    the process: nothing runs after it. *)
Fixpoint run (handler : GameHandler) (schedule : list nat)
    (gs : list Goroutine) : M (list Goroutine) :=
  match schedule with
  | [] => ret gs
  | i :: schedule' =>
      if existsb isPanicked gs then ret gs
      else
        match nth_error gs i with
        | None => run handler schedule' gs
        | Some g =>
            g' <- step handler g ;;
            run handler schedule' (replace i g' gs)
        end
  end.

(** [RunTasks] under a schedule: the goroutines it has started, as
    far as the schedule takes them. *)
Definition RunTasks (handler : GameHandler) (schedule : list nat)
  : M (list Goroutine) :=
  run handler schedule (spawn handler).

(** [wg.Wait()] returns, and [RunTasks] with it, when every goroutine
    has returned. *)
Definition waitReturns (gs : list Goroutine) : bool :=
  forallb isReturned gs.

(** The account a goroutine of [RunTasks] was started for. *)
Definition accountOf (g : Goroutine) : Account :=
  match g with
  | Ranging account _ => account
  | Ticking account _ _ => account
  | Panicked account => account
  | Returned account => account
  end.

(** [LoadConfig] *)
Definition LoadConfig {E : GoEnv} (filePath : string)
  : types.Config * option error :=
  match os_Open filePath with
  | inr err => (zeroConfig, Some err)
  | inl file => json_Decode_Config file
  end.

(** [LoadAccounts] *)
Definition LoadAccounts {E : GoEnv} (filePath : string)
  : list Account * option error :=
  match os_Open filePath with
  | inr err => ([], Some err)
  | inl file => json_Decode_Accounts file
  end.

(** [NewGameHandler]; the fields the composite literal leaves out have
    their zero values. *)
Definition NewGameHandler {E : GoEnv} (configPath gameDataPath : string)
  : GameHandler + error :=
  match LoadConfig configPath with
  | (_, Some err) => inr err
  | (config, None) =>
      match LoadAccounts gameDataPath with
      | (_, Some err) => inr err
      | (accounts, None) =>
          match httpclient.NewHTTPClient (ConfigProxy config) with
          | inr err => inr err
          | inl httpClient =>
              inl (mkGameHandler "" "" (ConfigProxy config) (ConfigAPIKey config)
                     accounts [] httpClient unlocked)
          end
      end
  end.

End WithLib.
End handler.

(** ** Package utils

    The package variable [logger] is the state: [None] is the nil
    logger.  A function returns the state it leaves. *)

Module utils.
Section WithEnv.
Context {E : GoEnv}.

(** [InitLogger] *)
Definition InitLogger (log : option Logger) (logger : option Logger)
  : option Logger :=
  log.

(** [GetLogger] *)
Definition GetLogger (logger : option Logger) : option Logger := logger.

(** [DefaultInit] *)
Definition DefaultInit (logger : option Logger) : option Logger :=
  match logger with
  | None =>
      match zap_NewProduction with
      | inl log => Some log
      | inr _ => None
      end
  | Some _ => logger
  end.

End WithEnv.
End utils.

(** ** A concrete library and concrete values, for evaluation *)

Module demo.
Import types.

(** The double quote of JSON texts. *)
Definition dq : string := String (ascii_of_nat 34) EmptyString.

(** A JSON string and a JSON member, for texts that need no escaping. *)
Definition jstr (s : string) : string := dq ++ s ++ dq.
Definition member (key value : string) : string := jstr key ++ ":" ++ value.

(** The encoding of a [GameDataRequest], by its json tags. *)
Definition marshalRequest (r : gamedata.GameDataRequest) : string :=
  let t := gamedata.Telegram r in
  let p := gamedata.Proxy r in
  "{" ++ member "game" (jstr (gamedata.Game r)) ++ ","
      ++ member "telegram"
           ("{" ++ member "tdataStringSession" (jstr (TdataStringSession t)) ++ ","
                ++ member "appId" (jstr (AppId t)) ++ ","
                ++ member "appHash" (jstr (AppHash t)) ++ ","
                ++ member "telegramId" (jstr (TelegramId t)) ++ "}") ++ ","
      ++ member "api-key" (jstr (gamedata.APIKey r)) ++ ","
      ++ member "proxy"
           ("{" ++ member "ip" (jstr (Ip p)) ++ ","
                ++ member "port" (fmt_d (Port p)) ++ ","
                ++ member "username" (jstr (Username p)) ++ ","
                ++ member "password" (jstr (Password p)) ++ ","
                ++ member "socksType" (fmt_d (SocksType p)) ++ ","
                ++ member "timeout" (fmt_d (Timeout p)) ++ "}")
      ++ "}".

(** A library in which a payload is given by what [json.Marshal] makes
    of it (its encoding, or the error), [http.NewRequest] rejects the
    URLs that start with a colon and accepts the others, header keys
    are canonical as they are and [proxy.SOCKS5] accepts every
    address. *)
#[export] Instance lib : GoLib := {
  PayloadMap := (string + error)%type;
  json_Marshal := fun p => p;
  json_Marshal_request := marshalRequest;
  http_NewRequest_error := fun _ url =>
    match url with
    | String ":" _ => Some (errorString "missing protocol scheme")
    | _ => None
    end;
  CanonicalMIMEHeaderKey := fun k => k;
  proxy_SOCKS5_error := fun _ _ _ => None
}.

Definition account : Account :=
  mkAccount "user=1" (mkTelegramData "session" "123456" "abcdef" "987654321").

(** The client of [NewHTTPClient(types.Proxy{})]. *)
Definition directClient : httpclient.HTTPClient :=
  httpclient.mkHTTPClient (mkClient directTransport 10000000000) zeroProxy [].

Definition gameURL : string := "https://game.example/api".

Definition daily : tasks.OneTimeTask :=
  tasks.NewOneTimeTask "daily" (inl "{}").

Definition ping : tasks.RecurrentTask :=
  tasks.NewRecurrentTask "ping" (inl "{}") 60000000000.

(** A handler with one account and the tasks given. *)
Definition handlerWith (ts : list tasks.Task) : handler.GameHandler :=
  handler.mkGameHandler "game" gameURL zeroProxy "key" [account] ts
    directClient unlocked.

Definition ok (body : string) : RoundTrip :=
  inl (mkResponse 200 (mkReadCloser body None)).

Definition status (code : Z) (body : string) : RoundTrip :=
  inl (mkResponse code (mkReadCloser body None)).

(** A network that answers the requests in turn from a script, and
    with a time-out once the script is over. *)
Definition scripted (script : list RoundTrip) : Client -> nat -> Request -> RoundTrip :=
  fun _ n _ => nth n script (inr (errorString "i/o timeout")).

Definition worldOf (script : list RoundTrip) : World :=
  mkWorld (scripted script) [] [].


Definition config : Config := mkConfig (mkProxy "10.0.0.1" 1080 "" "" 5 15) "key".

(** An environment with two files, [config.json] and [accounts.json],
    whose contents decode to [config] and to the one account [account];
    a response body parses when it starts with a brace; and
    [zap.NewProduction] succeeds. *)
#[export] Instance env : GoEnv := {
  os_Open := fun path =>
    if String.eqb path "config.json" then inl "config"
    else if String.eqb path "accounts.json" then inl "accounts"
    else inr (errorString ("open " ++ path ++ ": no such file or directory"));
  json_Decode_Config := fun file =>
    if String.eqb file "config" then (config, None)
    else (zeroConfig, Some (errorString "invalid character"));
  json_Decode_Accounts := fun file =>
    if String.eqb file "accounts" then ([account], None)
    else ([], Some (errorString "invalid character"));
  Target := string;
  json_Unmarshal := fun body v =>
    match body with
    | String "{" _ => (body, None)
    | _ => (v, Some (errorString "invalid character"))
    end;
  Logger := string;
  zap_NewProduction := inl "production"
}.

End demo.

(** ** Notions used in the statements *)

Section Notions.
Context {L : GoLib}.
Import types httpclient.

(** The timeout [NewHTTPClient] gives the client, in nanoseconds. *)
Definition timeoutOf (cfg : types.Proxy) : Z :=
  if Timeout cfg >? 0 then wrap64 (Timeout cfg * time_Second)
  else 10 * time_Second.

(** The client [NewHTTPClient] returns around a transport. *)
Definition clientOver (transport : Transport) (cfg : types.Proxy) : HTTPClient :=
  mkHTTPClient (mkClient transport (timeoutOf cfg)) zeroProxy [].

(** The credentials handed to [proxy.SOCKS5]: both the user name and
    the password, or none. *)
Definition credentials (cfg : types.Proxy) : option Auth :=
  if nonEmpty (Username cfg) && nonEmpty (Password cfg)
  then Some (mkAuth (Username cfg) (Password cfg))
  else None.

(** The address [proxy.SOCKS5] is given. *)
Definition proxyAddress (cfg : types.Proxy) : string :=
  Ip cfg ++ ":" ++ fmt_d (Port cfg).

(** The request [DoRequest] hands to [client.Do]: the new request
    with the headers of the client set on it. *)
Definition requestOf (httpClient : HTTPClient) (method url : string)
    (body : byteSlice) : Request :=
  fold_left (fun r kv => Header_Set r (fst kv) (snd kv))
            (headers httpClient) (mkRequest method url body []).

(** The world once a request is on the wire. *)
Definition sent (w : World) (req : Request) : World :=
  mkWorld (network w) (wire w ++ [req]) (printed w).

(** The answer of the network to the next request. *)
Definition answer (w : World) (c : Client) (req : Request) : RoundTrip :=
  network w c (List.length (wire w)) req.

(** A status code in [200, 300). *)
Definition is2xx (code : Z) : bool := (200 <=? code) && (code <? 300).

(** The world once a line is printed. *)
Definition printing (w : World) (line : Output) : World :=
  mkWorld (network w) (wire w) (printed w ++ [line]).

(** The payload of a task. *)
Definition payloadOf (task : tasks.Task) : PayloadMap :=
  match task with
  | tasks.OneTime t => tasks.Payload (tasks.oneTimeBase t)
  | tasks.Recurrent t => tasks.Payload (tasks.recurrentBase t)
  end.

(** The line [Run] prints first, and the line it prints last when it
    succeeds. *)
Definition runningLine (task : tasks.Task) (account : Account) : Output :=
  match task with
  | tasks.OneTime t =>
      RunningOneTime (tasks.Name (tasks.oneTimeBase t))
        (TelegramId (Telegram account)) (tasks.Payload (tasks.oneTimeBase t))
  | tasks.Recurrent t =>
      RunningRecurrent (tasks.Name (tasks.recurrentBase t))
        (TelegramId (Telegram account)) (tasks.Payload (tasks.recurrentBase t))
  end.

Definition executedLine (task : tasks.Task) (account : Account)
    (response : byteSlice) : Output :=
  match task with
  | tasks.OneTime t =>
      ExecutedOneTime (tasks.Name (tasks.oneTimeBase t))
        (TelegramId (Telegram account)) response
  | tasks.Recurrent t =>
      ExecutedRecurrent (tasks.Name (tasks.recurrentBase t))
        (TelegramId (Telegram account)) response
  end.

(** The lines that open a [Run]; their number among the lines printed
    is the number of calls of [Run]. *)
Definition isRunning (line : Output) : bool :=
  match line with
  | RunningOneTime _ _ _ | RunningRecurrent _ _ _ => true
  | _ => false
  end.

Definition runsStarted (out : list Output) : nat :=
  List.length (filter isRunning out).

(** The lines [RunTasks] logs for an error of [runTaskWithRetry]. *)
Definition isErrorLine (line : Output) : bool :=
  match line with
  | ErrorOneTime _ _ | ErrorRecurrent _ _ => true
  | _ => false
  end.

(** The lines of the [Run] of a one-time task. *)
Definition isOneTimeLine (line : Output) : bool :=
  match line with
  | RunningOneTime _ _ _ | ExecutedOneTime _ _ _ => true
  | _ => false
  end.

(** The lines of the [Run] of a given task for a given account. *)
Definition lineOf (task : tasks.Task) (account : Account) (line : Output) : Prop :=
  line = runningLine task account
  \/ exists response, line = executedLine task account response.

(** A goroutine of [RunTasks] that has reached the recurrent task [r]
    in front of the tasks [post], or has yet to: it ranges over tasks
    with [r] and [post] still ahead, or waits on the ticker of [r] or
    of a recurrent task before it, or has panicked. *)
Definition heldBy (r : tasks.RecurrentTask) (post : list tasks.Task)
    (g : handler.Goroutine) : Prop :=
  match g with
  | handler.Ranging _ rest =>
      exists pre, rest = (pre ++ tasks.Recurrent r :: post)%list
  | handler.Ticking _ t rest =>
      (t = r /\ rest = post)
      \/ exists pre, rest = (pre ++ tasks.Recurrent r :: post)%list
  | handler.Panicked _ => True
  | handler.Returned _ => False
  end.

(** A goroutine of [RunTasks] that is at a recurrent task, or waits
    on a ticker, or has panicked. *)
Definition atRecurrent (g : handler.Goroutine) : Prop :=
  match g with
  | handler.Ranging _ (tasks.Recurrent _ :: _) => True
  | handler.Ticking _ _ _ => True
  | handler.Panicked _ => True
  | _ => False
  end.

(** The calls that assign to a field of a handler. *)
Inductive Mutation : Type :=
| CallSetBaseURL (url : string)
| CallAddTask (task : tasks.Task).

Definition mutate (h : handler.GameHandler) (m : Mutation)
  : option handler.GameHandler :=
  match m with
  | CallSetBaseURL url => Some (handler.SetBaseURL h url)
  | CallAddTask task => handler.AddTask h task
  end.

(** Calls one after the other, each on the handler the one before
    has left. *)
Fixpoint mutateAll (h : handler.GameHandler) (ms : list Mutation)
  : option handler.GameHandler :=
  match ms with
  | [] => Some h
  | m :: ms' =>
      match mutate h m with
      | None => None
      | Some h' => mutateAll h' ms'
      end
  end.

(** The number of elements of a list with a property. *)
Definition countIf {A : Type} (f : A -> bool) (l : list A) : nat :=
  List.length (filter f l).

(** A call of [AddTask] that holds the mutex, and one that has made its
    assignment to [handler.Tasks]. *)
Definition holdsMutex (c : handler.AddTaskCall) : bool :=
  match c with
  | handler.AtRead _ | handler.AtWrite _ _ | handler.AtUnlock => true
  | _ => false
  end.

Definition hasAppended (c : handler.AddTaskCall) : bool :=
  match c with
  | handler.AtUnlock | handler.Finished => true
  | _ => false
  end.

(** The slice a call has read is the task list as it is. *)
Definition readsCurrent (h : handler.GameHandler) (c : handler.AddTaskCall) : Prop :=
  match c with
  | handler.AtWrite _ old => old = handler.Tasks h
  | _ => True
  end.

(** What holds of the calls of [AddTask] in progress on a handler that
    had [n] tasks when they started: the task list has grown by one task
    for each call that has made its assignment; the calls that hold the
    mutex are one if it is locked and none if it is free; and a slice
    read by a call is the task list as it is. *)
Definition serialized (n : nat) (h : handler.GameHandler)
    (calls : list handler.AddTaskCall) : Prop :=
  List.length (handler.Tasks h) = (n + countIf hasAppended calls)%nat
  /\ countIf holdsMutex calls
     = match handler.mu h with locked => 1%nat | unlocked => 0%nat end
  /\ Forall (readsCurrent h) calls.

(** The schedule that runs the calls [k], [k+1], ... of [n] calls one
    after the other, four statements each. *)
Definition oneByOne (k n : nat) : list nat :=
  flat_map (fun i => [i; i; i; i]) (seq k n).

(** The schedule that gives the goroutines [k], [k+1], ... of [n]
    goroutines [m] steps each, one goroutine after the other. *)
Definition eachInTurn (m k n : nat) : list nat :=
  flat_map (fun i => repeat i m) (seq k n).

(** A task list with one-time tasks only. *)
Definition allOneTime (ts : list tasks.Task) : bool :=
  forallb (fun task => match task with
                       | tasks.OneTime _ => true
                       | tasks.Recurrent _ => false
                       end) ts.

(** The URL [refreshGameData] posts to. *)
Definition refreshURL : string :=
  "http://34.95.182.203:1337/api/telegram/game-data".

(** The refresh call of [runTaskWithRetry]. *)
Definition refreshFor (h : handler.GameHandler) (account : Account)
  : M (byteSlice * option error) :=
  handler.refreshGameData (handler.HttpClient h) (handler.GameName h)
    (handler.APIKey h) (Telegram account) (handler.Proxy h).

(** What [GameHandler.Post] and [refreshGameData] make of the outcome
    of the transport's [Post]: the body read in full, or the error. *)
Definition bodyOf (r : Response + error) : byteSlice * option error :=
  match r with
  | inr err => (nilSlice, Some err)
  | inl resp =>
      match readError (Body resp) with
      | Some err => (nilSlice, Some err)
      | None => (slice (content (Body resp)), None)
      end
  end.

(** The name of a task and the word for its kind in the messages of
    [Run]. *)
Definition nameOf (task : tasks.Task) : string :=
  match task with
  | tasks.OneTime t => tasks.Name (tasks.oneTimeBase t)
  | tasks.Recurrent t => tasks.Name (tasks.recurrentBase t)
  end.

Definition kindWord (task : tasks.Task) : string :=
  match task with
  | tasks.OneTime _ => "one-time"
  | tasks.Recurrent _ => "recurrent"
  end.

(** The message of the error of [Run] for a failed POST. *)
Definition executeMessage (task : tasks.Task) (account : Account)
    (cause : string) : string :=
  "failed to execute " ++ kindWord task ++ " task '" ++ nameOf task
    ++ "' for account " ++ TelegramId (Telegram account) ++ ": " ++ cause.

(** The message of the error of [Run] for a payload that cannot be
    encoded. *)
Definition marshalMessage (task : tasks.Task) (cause : string) : string :=
  "failed to marshal payload for " ++ kindWord task ++ " task '" ++ nameOf task
    ++ "': " ++ cause.

(** A configuration without its credentials. *)
Definition withoutCredentials (cfg : types.Proxy) : types.Proxy :=
  mkProxy (Ip cfg) (Port cfg) "" "" (SocksType cfg) (Timeout cfg).





(** A goroutine of [RunTasks] that ranges over no task, or has
    returned. *)
Definition idle (g : handler.Goroutine) : Prop :=
  match g with
  | handler.Ranging _ [] => True
  | handler.Returned _ => True
  | _ => False
  end.

End Notions.

(** * Properties *)

(** ** Go values *)

Lemma nonEmpty_true (s : string) : s <> "" -> nonEmpty s = true.
Proof. destruct s; [congruence | reflexivity]. Qed.

Lemma nonEmpty_false (s : string) : s = "" -> nonEmpty s = false.
Proof. intros ->. reflexivity. Qed.

Lemma nonEmpty_spec (s : string) : nonEmpty s = true <-> s <> "".
Proof.
  split; [| apply nonEmpty_true].
  destruct s; simpl; [discriminate | intros _ E; discriminate E].
Qed.

Lemma wrap64_small (z : Z) : - 2 ^ 63 <= z < 2 ^ 63 -> wrap64 z = z.
Proof.
  intros Hz. unfold wrap64.
  rewrite Z.mod_small by lia. lia.
Qed.

(** ** Lists *)

Lemma filter_none {A : Type} (P : A -> bool) (l : list A) :
  Forall (fun a => P a = false) l -> filter P l = [].
Proof.
  induction 1 as [| a l Ha _ IH]; simpl; [reflexivity |].
  rewrite Ha. exact IH.
Qed.

Lemma Forall_replace {A : Type} (I : A -> Prop) (i : nat) (g : A) (gs : list A) :
  I g -> Forall I gs -> Forall I (replace i g gs).
Proof.
  intros Hg Hgs. revert i.
  induction Hgs as [| g0 gs Hg0 Hgs IH]; intros i;
    destruct i as [| i]; simpl; constructor; auto.
Qed.

Lemma replace_length {A : Type} (i : nat) (g : A) (gs : list A) :
  List.length (replace i g gs) = List.length gs.
Proof.
  revert i. induction gs as [| g0 gs IH]; intros i;
    destruct i as [| i]; simpl; try reflexivity.
  now rewrite IH.
Qed.

Lemma countIf_replace {A : Type} (f : A -> bool) (i : nat) (x y : A) (l : list A) :
  nth_error l i = Some y ->
  (countIf f (replace i x l) + Nat.b2n (f y) = countIf f l + Nat.b2n (f x))%nat.
Proof.
  unfold countIf. revert i.
  induction l as [| z l IH]; intros i Hnth; destruct i as [| i];
    simpl in Hnth; try discriminate Hnth.
  - injection Hnth as ->. simpl.
    destruct (f x), (f y); simpl; lia.
  - specialize (IH i Hnth). simpl.
    destruct (f z); simpl; lia.
Qed.

Lemma countIf_zero {A : Type} (f : A -> bool) (l : list A) :
  countIf f l = 0%nat -> Forall (fun a => f a = false) l.
Proof.
  unfold countIf. induction l as [| a l IH]; simpl; intros Hzero.
  - constructor.
  - destruct (f a) eqn:Ha; [discriminate Hzero |].
    constructor; [exact Ha | exact (IH Hzero)].
Qed.

Lemma countIf_all {A : Type} (f : A -> bool) (l : list A) :
  forallb f l = true -> countIf f l = List.length l.
Proof.
  unfold countIf. induction l as [| a l IH]; simpl; intros Hall.
  - reflexivity.
  - apply andb_true_iff in Hall. destruct Hall as [Ha Hl].
    rewrite Ha. simpl. now rewrite IH.
Qed.

Lemma countIf_positive {A : Type} (f : A -> bool) (i : nat) (y : A) (l : list A) :
  nth_error l i = Some y -> f y = true -> (1 <= countIf f l)%nat.
Proof.
  intros Hnth Hy. unfold countIf. revert i Hnth.
  induction l as [| a l IH]; intros i Hnth; destruct i as [| i];
    simpl in Hnth; try discriminate Hnth; simpl.
  - injection Hnth as ->. rewrite Hy. simpl. lia.
  - specialize (IH i Hnth). destruct (f a); simpl; lia.
Qed.

(** When one element only has a property and it is replaced, what holds
    of the elements without the property and of the new element holds of
    all. *)
Lemma Forall_replace_sole {A : Type} (f : A -> bool) (P : A -> Prop)
    (i : nat) (x y : A) (l : list A) :
  countIf f l = 1%nat -> nth_error l i = Some y -> f y = true ->
  (forall a, f a = false -> P a) -> P x ->
  Forall P (replace i x l).
Proof.
  intros Hone Hnth Hy Hothers Hx. revert i Hone Hnth.
  induction l as [| z l IH]; intros i Hone Hnth; destruct i as [| i];
    simpl in Hnth; try discriminate Hnth.
  - injection Hnth as ->. simpl. constructor; [exact Hx |].
    unfold countIf in Hone. simpl in Hone. rewrite Hy in Hone.
    injection Hone as Hzero.
    eapply Forall_impl; [| apply (@countIf_zero _ f l Hzero)].
    exact Hothers.
  - simpl. unfold countIf in Hone. simpl in Hone.
    pose proof (@countIf_positive _ f i y l Hnth Hy) as Hpos.
    unfold countIf in Hpos.
    destruct (f z) eqn:Hz; simpl in Hone.
    + lia.
    + constructor; [apply Hothers; exact Hz |].
      apply IH; [exact Hone | exact Hnth].
Qed.

Lemma nth_error_middle {A : Type} (done rest : list A) (x : A) :
  nth_error (done ++ x :: rest) (List.length done) = Some x.
Proof.
  induction done as [| d done IH]; simpl; [reflexivity | exact IH].
Qed.

Lemma replace_middle {A : Type} (done rest : list A) (x y : A) :
  replace (List.length done) y (done ++ x :: rest) = (done ++ y :: rest)%list.
Proof.
  induction done as [| d done IH]; simpl; [reflexivity | now rewrite IH].
Qed.

Lemma existsb_middle {A : Type} (f : A -> bool) (done rest : list A) (x : A) :
  existsb f (done ++ x :: rest) = existsb f done || f x || existsb f rest.
Proof.
  rewrite existsb_app. simpl. apply orb_assoc.
Qed.

(** ** The transport: construction *)

Section Construction.
Context {L : GoLib}.
Import types httpclient.

(** The proxy branch of [NewHTTPClient] is not entered. *)
Lemma NewHTTPClient_gate_closed (cfg : types.Proxy) :
  nonEmpty (Ip cfg) && (Port cfg >? 0) = false ->
  NewHTTPClient cfg = inl (clientOver directTransport cfg).
Proof.
  intros Hgate. unfold NewHTTPClient. rewrite Hgate. reflexivity.
Qed.

Lemma gate_open (cfg : types.Proxy) :
  Ip cfg <> "" -> 0 < Port cfg ->
  nonEmpty (Ip cfg) && (Port cfg >? 0) = true.
Proof.
  intros Hip Hport. rewrite (nonEmpty_true Hip). simpl. lia.
Qed.

(** The proxy branch, by SOCKS version. *)
Lemma NewHTTPClient_socks4 (cfg : types.Proxy) :
  Ip cfg <> "" -> 0 < Port cfg -> SocksType cfg = 4 ->
  NewHTTPClient cfg =
    inr (errorString "SOCKS4 proxy is not supported in this implementation").
Proof.
  intros Hip Hport Hv. unfold NewHTTPClient.
  rewrite (gate_open cfg Hip Hport), Hv. reflexivity.
Qed.

Lemma NewHTTPClient_socks_other (cfg : types.Proxy) :
  Ip cfg <> "" -> 0 < Port cfg -> SocksType cfg <> 4 -> SocksType cfg <> 5 ->
  NewHTTPClient cfg =
    inr (errorString ("invalid SOCKS type: " ++ fmt_d (SocksType cfg))).
Proof.
  intros Hip Hport H4 H5. unfold NewHTTPClient.
  rewrite (gate_open cfg Hip Hport).
  destruct (Z.eqb_spec (SocksType cfg) 5) as [E | _]; [contradiction |].
  destruct (Z.eqb_spec (SocksType cfg) 4) as [E | _]; [contradiction |].
  reflexivity.
Qed.

Lemma NewHTTPClient_socks5 (cfg : types.Proxy) :
  Ip cfg <> "" -> 0 < Port cfg -> SocksType cfg = 5 ->
  NewHTTPClient cfg =
    match proxy_SOCKS5_error "tcp" (proxyAddress cfg) (credentials cfg) with
    | Some err =>
        inr (errorString ("failed to create SOCKS dialer: " ++ Error err))
    | None =>
        inl (clientOver
               (dialerTransport
                  (mkDialer "tcp" (proxyAddress cfg) (credentials cfg))) cfg)
    end.
Proof.
  intros Hip Hport Hv. unfold NewHTTPClient.
  rewrite (gate_open cfg Hip Hport), Hv.
  change (5 =? 5) with true. cbv iota.
  fold (proxyAddress cfg). unfold credentials, proxy_SOCKS5.
  destruct (nonEmpty (Username cfg) && nonEmpty (Password cfg));
    cbv zeta;
    match goal with
    | |- context [proxy_SOCKS5_error ?n ?a ?c] =>
        destruct (proxy_SOCKS5_error n a c)
    end; reflexivity.
Qed.

(** The timeout of the client: ten seconds unless [Timeout] is
    positive, and then that many seconds as long as they fit in a
    [time.Duration]. *)
Lemma timeoutOf_seconds (cfg : types.Proxy) :
  (Timeout cfg <= 0 -> timeoutOf cfg = 10 * time_Second)
  /\ (0 < Timeout cfg <= 9223372036 ->
      timeoutOf cfg = Timeout cfg * time_Second).
Proof.
  unfold timeoutOf, time_Second. split; intros Ht.
  - destruct (Z.gtb_spec (Timeout cfg) 0); [lia | reflexivity].
  - destruct (Z.gtb_spec (Timeout cfg) 0); [| lia].
    apply wrap64_small. lia.
Qed.

(** C7.  A proxy configuration with an empty [Ip] makes
    [NewHTTPClient] succeed with a client whose transport dials
    directly, whatever the other fields are. *)
Theorem NewHTTPClient_without_ip_is_direct (cfg : types.Proxy) :
  Ip cfg = "" ->
  NewHTTPClient cfg = inl (clientOver directTransport cfg)
  /\ clientTransport (client (clientOver directTransport cfg)) = directTransport.
Proof.
  intros Hip. split; [| reflexivity].
  apply NewHTTPClient_gate_closed.
  rewrite (nonEmpty_false Hip). reflexivity.
Qed.

(** C9.  With a non-empty [Ip] and a [Port] that is zero or negative,
    [NewHTTPClient] succeeds with a direct client whatever [SocksType]
    is; and whenever [NewHTTPClient] returns an error, the SOCKS
    validation errors among them, [Ip] is non-empty and [Port] is
    positive. *)
Theorem NewHTTPClient_validates_only_with_ip_and_port (cfg : types.Proxy) :
  (Ip cfg <> "" -> Port cfg <= 0 ->
     NewHTTPClient cfg = inl (clientOver directTransport cfg))
  /\ (forall err, NewHTTPClient cfg = inr err ->
        Ip cfg <> "" /\ 0 < Port cfg).
Proof.
  split.
  - intros _ Hport. apply NewHTTPClient_gate_closed.
    apply andb_false_iff. right. lia.
  - intros err Herr.
    destruct (nonEmpty (Ip cfg) && (Port cfg >? 0)) eqn:Hgate.
    + apply andb_true_iff in Hgate. destruct Hgate as [Hip Hport].
      split; [apply nonEmpty_spec; exact Hip | lia].
    + rewrite (NewHTTPClient_gate_closed cfg Hgate) in Herr. discriminate Herr.
Qed.

(** C5, amended.  For a proxy configuration with a non-empty [Ip] and
    a positive [Port]: SOCKS version 4 makes [NewHTTPClient] fail with
    the unsupported-proxy error; a version other than 4 and 5 makes it
    fail with the invalid-SOCKS-type error; version 5 with an address
    that [proxy.SOCKS5] accepts succeeds with a client that dials
    through the proxy, with credentials or without. *)
Theorem NewHTTPClient_socks_version (cfg : types.Proxy) :
  Ip cfg <> "" -> 0 < Port cfg ->
  (SocksType cfg = 4 ->
     NewHTTPClient cfg =
       inr (errorString "SOCKS4 proxy is not supported in this implementation"))
  /\ (SocksType cfg <> 4 -> SocksType cfg <> 5 ->
        NewHTTPClient cfg =
          inr (errorString ("invalid SOCKS type: " ++ fmt_d (SocksType cfg))))
  /\ (SocksType cfg = 5 ->
      (forall auth, proxy_SOCKS5_error "tcp" (proxyAddress cfg) auth = None) ->
        NewHTTPClient cfg =
          inl (clientOver
                 (dialerTransport
                    (mkDialer "tcp" (proxyAddress cfg) (credentials cfg))) cfg)).
Proof.
  intros Hip Hport. repeat split.
  - apply NewHTTPClient_socks4; assumption.
  - apply NewHTTPClient_socks_other; assumption.
  - intros Hv Hok. rewrite (NewHTTPClient_socks5 cfg Hip Hport Hv), Hok.
    reflexivity.
Qed.

End Construction.

(** C7 at the configuration [{ip: "", port: 0}]. *)
Lemma NewHTTPClient_without_ip_is_direct_witness :
  types.Ip types.zeroProxy = ""
  /\ httpclient.NewHTTPClient (L := demo.lib) types.zeroProxy
     = inl demo.directClient.
Proof.
  split; [reflexivity |].
  exact (proj1 (NewHTTPClient_without_ip_is_direct (L := demo.lib)
                  types.zeroProxy eq_refl)).
Defined.

(** C9 at an address without a port and with a SOCKS version that is
    neither 4 nor 5. *)
Lemma NewHTTPClient_validates_only_with_ip_and_port_witness :
  let cfg := types.mkProxy "10.0.0.1" 0 "" "" 7 0 in
  types.Ip cfg <> "" /\ types.Port cfg <= 0
  /\ httpclient.NewHTTPClient (L := demo.lib) cfg = inl demo.directClient.
Proof.
  intros cfg.
  assert (Hip : types.Ip cfg <> "") by discriminate.
  assert (Hport : types.Port cfg <= 0) by (simpl; lia).
  split; [exact Hip | split; [exact Hport |]].
  exact (proj1 (NewHTTPClient_validates_only_with_ip_and_port (L := demo.lib) cfg)
           Hip Hport).
Defined.

(** C5 as stated fails at a configuration with an address, SOCKS
    version 4 and no port: [NewHTTPClient] returns a direct client and no
    error. *)
Lemma NewHTTPClient_socks4_without_port :
  let cfg := types.mkProxy "10.0.0.1" 0 "" "" 4 0 in
  (types.Ip cfg <> "" /\ types.SocksType cfg = 4
   /\ httpclient.NewHTTPClient (L := demo.lib) cfg = inl demo.directClient)
  /\ ~ (forall cfg' : types.Proxy,
          types.Ip cfg' <> "" -> types.SocksType cfg' = 4 ->
          httpclient.NewHTTPClient (L := demo.lib) cfg'
          = inr (errorString
                   "SOCKS4 proxy is not supported in this implementation")).
Proof.
  intros cfg.
  assert (Hip : types.Ip cfg <> "") by discriminate.
  split.
  - split; [exact Hip | split; reflexivity].
  - intros Hall. specialize (Hall cfg Hip eq_refl). discriminate Hall.
Qed.

(** C5, amended, at three configurations with an address and a port:
    version 4, version 9, and version 5 without credentials. *)
Lemma NewHTTPClient_socks_version_witness :
  httpclient.NewHTTPClient (L := demo.lib)
    (types.mkProxy "10.0.0.1" 1080 "user" "secret" 4 15)
  = inr (errorString "SOCKS4 proxy is not supported in this implementation")
  /\ httpclient.NewHTTPClient (L := demo.lib)
       (types.mkProxy "10.0.0.1" 1080 "user" "secret" 9 15)
     = inr (errorString "invalid SOCKS type: 9")
  /\ httpclient.NewHTTPClient (L := demo.lib)
       (types.mkProxy "10.0.0.1" 1080 "" "" 5 15)
     = inl (httpclient.mkHTTPClient
                (mkClient (dialerTransport (mkDialer "tcp" "10.0.0.1:1080" None))
                           15000000000)
                types.zeroProxy []).
Proof.
  assert (Hip : forall u p v, types.Ip (types.mkProxy "10.0.0.1" 1080 u p v 15) <> "")
    by (intros; discriminate).
  assert (Hport : forall u p v, 0 < types.Port (types.mkProxy "10.0.0.1" 1080 u p v 15))
    by (intros; simpl; lia).
  split; [| split].
  - exact (proj1 (NewHTTPClient_socks_version (L := demo.lib) _
                    (Hip "user" "secret" 4) (Hport "user" "secret" 4)) eq_refl).
  - refine (proj1 (proj2 (NewHTTPClient_socks_version (L := demo.lib) _
                    (Hip "user" "secret" 9) (Hport "user" "secret" 9))) _ _);
      discriminate.
  - exact (proj2 (proj2 (NewHTTPClient_socks_version (L := demo.lib) _
                    (Hip "" "" 5) (Hport "" "" 5))) eq_refl
             (fun _ => eq_refl)).
Defined.

(** ** The transport: requests *)

Section Requests.
Context {L : GoLib}.
Import httpclient.

Lemma Header_Set_line (req : Request) (key value : string) :
  Method (Header_Set req key value) = Method req
  /\ URL (Header_Set req key value) = URL req
  /\ RequestBody (Header_Set req key value) = RequestBody req.
Proof. repeat split. Qed.

(** Setting headers leaves the method, the URL and the body alone. *)
Lemma requestOf_line (c : HTTPClient) (method url : string) (body : byteSlice) :
  Method (requestOf c method url body) = method
  /\ URL (requestOf c method url body) = url
  /\ RequestBody (requestOf c method url body) = body.
Proof.
  unfold requestOf.
  assert (Hfold : forall hs req,
    let req' := fold_left (fun r kv => Header_Set r (fst kv) (snd kv)) hs req in
    Method req' = Method req /\ URL req' = URL req
    /\ RequestBody req' = RequestBody req).
  { induction hs as [| kv hs IH]; intros req; simpl.
    - repeat split.
    - destruct (IH (Header_Set req (fst kv) (snd kv))) as (Hm & Hu & Hb).
      repeat split; assumption. }
  apply (Hfold (headers c) (mkRequest method url body [])).
Qed.

(** [DoRequest] when [http.NewRequest] fails: nothing is sent. *)
Lemma DoRequest_rejected (c : HTTPClient) (method url : string)
    (body : byteSlice) (w : World) (err : error) :
  http_NewRequest_error method url = Some err ->
  DoRequest c method url body w = (inr err, w).
Proof.
  intros Hreq. unfold DoRequest, http_NewRequest. rewrite Hreq. reflexivity.
Qed.

(** [DoRequest] when the request is made: it goes on the wire, and the
    result follows from the answer of the network. *)
Lemma DoRequest_sent (c : HTTPClient) (method url : string)
    (body : byteSlice) (w : World) :
  http_NewRequest_error method url = None ->
  let req := requestOf c method url body in
  DoRequest c method url body w =
    (match answer w (client c) req with
     | inr err => inr err
     | inl resp =>
         if is2xx (StatusCode resp) then inl resp
         else inr (errors_New (content (Body resp)))
     end, sent w req).
Proof.
  intros Hreq req. unfold DoRequest, http_NewRequest. rewrite Hreq.
  fold (requestOf c method url body). fold req.
  unfold bind, client_Do. fold (answer w (client c) req). fold (sent w req).
  destruct (answer w (client c) req) as [resp | err]; [| reflexivity].
  unfold is2xx.
  destruct (Z.ltb_spec (StatusCode resp) 200);
    destruct (Z.geb_spec (StatusCode resp) 300);
    destruct (Z.leb_spec 200 (StatusCode resp));
    destruct (Z.ltb_spec (StatusCode resp) 300);
    try lia; reflexivity.
Qed.

(** C4.  When the network answers the request of [Post] with an HTTP
    response, [Post] returns that response and no error if the status
    is in [200, 300), and otherwise an error whose message is the text
    of the response body; and likewise for [Get]. *)
Theorem Post_Get_status_mapping (c : HTTPClient) (url : string)
    (body : byteSlice) (w : World) (resp : Response) :
  (http_NewRequest_error http_MethodPost url = None ->
   answer w (client c) (requestOf c http_MethodPost url body) = inl resp ->
     (200 <= StatusCode resp < 300 -> fst (Post c url body w) = inl resp)
     /\ (StatusCode resp < 200 \/ 300 <= StatusCode resp ->
           exists err, fst (Post c url body w) = inr err
                       /\ Error err = content (Body resp)))
  /\ (http_NewRequest_error http_MethodGet url = None ->
      answer w (client c) (requestOf c http_MethodGet url nilSlice) = inl resp ->
        (200 <= StatusCode resp < 300 -> fst (Get c url w) = inl resp)
        /\ (StatusCode resp < 200 \/ 300 <= StatusCode resp ->
              exists err, fst (Get c url w) = inr err
                          /\ Error err = content (Body resp))).
Proof.
  assert (Hmap : forall method b,
    http_NewRequest_error method url = None ->
    answer w (client c) (requestOf c method url b) = inl resp ->
    (200 <= StatusCode resp < 300 -> fst (DoRequest c method url b w) = inl resp)
    /\ (StatusCode resp < 200 \/ 300 <= StatusCode resp ->
          exists err, fst (DoRequest c method url b w) = inr err
                      /\ Error err = content (Body resp))).
  { intros method b Hreq Hans.
    rewrite (DoRequest_sent c method url b w Hreq). cbv zeta.
    rewrite Hans. unfold is2xx. simpl fst. split.
    - intros Hok.
      destruct (Z.leb_spec 200 (StatusCode resp)); [| lia].
      destruct (Z.ltb_spec (StatusCode resp) 300); [| lia].
      reflexivity.
    - intros Hout. exists (errors_New (content (Body resp))).
      split; [| reflexivity].
      destruct (Z.leb_spec 200 (StatusCode resp));
        destruct (Z.ltb_spec (StatusCode resp) 300);
        try lia; reflexivity. }
  split; intros Hreq Hans.
  - exact (Hmap http_MethodPost body Hreq Hans).
  - exact (Hmap http_MethodGet nilSlice Hreq Hans).
Qed.

End Requests.

(** C4 at a 404 answer and at a 200 answer. *)
Lemma Post_Get_status_mapping_witness :
  let notFound := mkResponse 404 (mkReadCloser "not found" None) in
  let fine := mkResponse 200 (mkReadCloser "fine" None) in
  ((exists err,
      fst (httpclient.Post (L := demo.lib) demo.directClient demo.gameURL
             (slice "{}") (demo.worldOf [inl notFound])) = inr err
      /\ Error err = "not found")
   /\ fst (httpclient.Post (L := demo.lib) demo.directClient demo.gameURL
             (slice "{}") (demo.worldOf [inl fine])) = inl fine)
  /\ ((exists err,
         fst (httpclient.Get (L := demo.lib) demo.directClient demo.gameURL
                (demo.worldOf [inl notFound])) = inr err
         /\ Error err = "not found")
      /\ fst (httpclient.Get (L := demo.lib) demo.directClient demo.gameURL
                (demo.worldOf [inl fine])) = inl fine).
Proof.
  intros notFound fine.
  pose proof (Post_Get_status_mapping (L := demo.lib) demo.directClient
                demo.gameURL (slice "{}") (demo.worldOf [inl notFound]) notFound)
    as [Hpost404 Hget404].
  pose proof (Post_Get_status_mapping (L := demo.lib) demo.directClient
                demo.gameURL (slice "{}") (demo.worldOf [inl fine]) fine)
    as [Hpost200 Hget200].
  assert (Hout : StatusCode notFound < 200 \/ 300 <= StatusCode notFound)
    by (right; simpl; lia).
  assert (Hin : 200 <= StatusCode fine < 300) by (simpl; lia).
  split; split.
  - exact (proj2 (Hpost404 eq_refl eq_refl) Hout).
  - exact (proj1 (Hpost200 eq_refl eq_refl) Hin).
  - exact (proj2 (Hget404 eq_refl eq_refl) Hout).
  - exact (proj1 (Hget200 eq_refl eq_refl) Hin).
Defined.

(** ** The handler's POST and the refresh call *)

Section Posting.
Context {L : GoLib}.
Import types.

(** [GameHandler.Post] is the transport's [Post] followed by the
    reading of the body. *)
Lemma handler_Post_bodyOf (h : handler.GameHandler) (url : string)
    (payload : byteSlice) (w : World) :
  handler.Post h url payload w =
    (bodyOf (fst (httpclient.Post (handler.HttpClient h) url payload w)),
     snd (httpclient.Post (handler.HttpClient h) url payload w)).
Proof.
  unfold handler.Post, bind.
  destruct (httpclient.Post (handler.HttpClient h) url payload w) as [[resp | err] w'];
    simpl; [| reflexivity].
  unfold io_ReadAll. destruct (readError (Body resp)); reflexivity.
Qed.

(** So is [refreshGameData], at its own URL and body. *)
Lemma refreshGameData_bodyOf (c : httpclient.HTTPClient) (game apiKey : string)
    (telegram : TelegramData) (proxyConfig : types.Proxy) (w : World) :
  let body :=
    slice (json_Marshal_request
             (gamedata.mkGameDataRequest game telegram apiKey proxyConfig)) in
  handler.refreshGameData c game apiKey telegram proxyConfig w =
    (bodyOf (fst (httpclient.Post c refreshURL body w)),
     snd (httpclient.Post c refreshURL body w)).
Proof.
  intros body. unfold handler.refreshGameData, bind.
  change ("http://34.95.182.203:1337/api" ++ "/telegram/game-data")
    with refreshURL.
  cbv zeta. fold body.
  destruct (httpclient.Post c refreshURL body w) as [[resp | err] w'];
    simpl; [| reflexivity].
  unfold io_ReadAll. destruct (readError (Body resp)); reflexivity.
Qed.

(** The body comes back non-nil exactly when there is no error. *)
Lemma bodyOf_notNil (r : Response + error) :
  notNil (fst (bodyOf r)) = true <-> snd (bodyOf r) = None.
Proof.
  destruct r as [resp | err]; simpl.
  - destruct (readError (Body resp)); simpl; split; congruence.
  - split; discriminate.
Qed.

(** The transport prints nothing and leaves the network as it is. *)
Lemma DoRequest_frame (c : httpclient.HTTPClient) (method url : string)
    (body : byteSlice) (w : World) :
  printed (snd (httpclient.DoRequest c method url body w)) = printed w
  /\ network (snd (httpclient.DoRequest c method url body w)) = network w.
Proof.
  destruct (http_NewRequest_error method url) as [err |] eqn:Hreq.
  - rewrite (DoRequest_rejected c method url body w Hreq). split; reflexivity.
  - rewrite (DoRequest_sent c method url body w Hreq). split; reflexivity.
Qed.

(** What the transport puts on the wire: the request, if
    [http.NewRequest] makes one. *)
Lemma DoRequest_wire (c : httpclient.HTTPClient) (method url : string)
    (body : byteSlice) (w : World) :
  wire (snd (httpclient.DoRequest c method url body w)) =
    (wire w ++
     match http_NewRequest_error method url with
     | Some _ => []
     | None => [requestOf c method url body]
     end)%list.
Proof.
  destruct (http_NewRequest_error method url) as [err |] eqn:Hreq.
  - rewrite (DoRequest_rejected c method url body w Hreq). simpl.
    symmetry. apply app_nil_r.
  - rewrite (DoRequest_sent c method url body w Hreq). reflexivity.
Qed.

Lemma handler_Post_frame (h : handler.GameHandler) (url : string)
    (payload : byteSlice) (w : World) :
  printed (snd (handler.Post h url payload w)) = printed w
  /\ network (snd (handler.Post h url payload w)) = network w.
Proof.
  rewrite handler_Post_bodyOf. apply DoRequest_frame.
Qed.

Lemma refreshGameData_frame (c : httpclient.HTTPClient) (game apiKey : string)
    (telegram : TelegramData) (proxyConfig : types.Proxy) (w : World) :
  printed (snd (handler.refreshGameData c game apiKey telegram proxyConfig w))
  = printed w
  /\ network (snd (handler.refreshGameData c game apiKey telegram proxyConfig w))
     = network w.
Proof.
  rewrite refreshGameData_bodyOf. apply DoRequest_frame.
Qed.

(** C10.  Whatever its arguments and the world, what
    [refreshGameData] puts on the wire is a POST to the URL
    [http://34.95.182.203:1337/api/telegram/game-data], with the
    encoding of its arguments as the body: one request if
    [http.NewRequest] accepts that URL, none otherwise.  The base URL
    of the handler is no part of the refresh call of
    [runTaskWithRetry]. *)
Theorem refreshGameData_posts_to_fixed_url (c : httpclient.HTTPClient)
    (game apiKey : string) (telegram : TelegramData)
    (proxyConfig : types.Proxy) (w : World) :
  let w' := snd (handler.refreshGameData c game apiKey telegram proxyConfig w) in
  let body :=
    slice (json_Marshal_request
             (gamedata.mkGameDataRequest game telegram apiKey proxyConfig)) in
  refreshURL = "http://34.95.182.203:1337/api/telegram/game-data"
  /\ wire w' =
       (wire w ++
        match http_NewRequest_error http_MethodPost refreshURL with
        | Some _ => []
        | None => [requestOf c http_MethodPost refreshURL body]
        end)%list
  /\ Method (requestOf c http_MethodPost refreshURL body) = "POST"
  /\ URL (requestOf c http_MethodPost refreshURL body) = refreshURL
  /\ RequestBody (requestOf c http_MethodPost refreshURL body) = body
  /\ (forall (h : handler.GameHandler) (account : Account) (url : string),
        refreshFor (handler.SetBaseURL h url) account = refreshFor h account).
Proof.
  intros w' body. split; [reflexivity |]. split.
  - unfold w'. rewrite refreshGameData_bodyOf. apply DoRequest_wire.
  - destruct (requestOf_line c http_MethodPost refreshURL body) as (Hm & Hu & Hb).
    repeat split; assumption.
Qed.

End Posting.

(** ** Task.Run *)

Section Running.
Context {L : GoLib}.
Import types.

(** [Run] on any handler, when the payload cannot be encoded: the
    opening line is printed and the error of [json.Marshal] comes back
    wrapped; the handler is not called. *)
Lemma Run_marshal_error {H : Type} {HH : tasks.Handler H}
    (task : tasks.Task) (account : Account) (handler : H) (w : World)
    (err : error) :
  json_Marshal (payloadOf task) = inr err ->
  exists msg,
    tasks.Run task account handler w
    = (Some (wrapError msg err), printing w (runningLine task account)).
Proof.
  intros Henc.
  destruct task as [t | t]; simpl in Henc;
    unfold tasks.Run, tasks.OneTimeTask_Run, tasks.RecurrentTask_Run,
      bind, Printf;
    cbv zeta; rewrite Henc; eexists; reflexivity.
Qed.

(** [Run] on any handler, when the payload is encoded: the encoding is
    posted to the base URL of the handler; an error of the POST comes
    back wrapped; without one, the closing line is printed and [Run]
    returns nil. *)
Lemma Run_posts {H : Type} {HH : tasks.Handler H}
    (task : tasks.Task) (account : Account) (handler : H) (w : World)
    (data : string) :
  json_Marshal (payloadOf task) = inl data ->
  let posted :=
    tasks.Post handler (tasks.GetBaseURL handler) (slice data)
      (printing w (runningLine task account)) in
  match snd (fst posted) with
  | Some err =>
      exists msg,
        tasks.Run task account handler w = (Some (wrapError msg err), snd posted)
  | None =>
      tasks.Run task account handler w
      = (None, printing (snd posted)
                 (executedLine task account (fst (fst posted))))
  end.
Proof.
  intros Henc posted.
  destruct task as [t | t]; simpl in Henc;
    unfold tasks.Run, tasks.OneTimeTask_Run, tasks.RecurrentTask_Run,
      bind, Printf;
    cbv zeta; rewrite Henc; subst posted;
    unfold printing, runningLine, executedLine;
    match goal with
    | |- context [tasks.Post ?h ?u ?b ?w0] =>
        destruct (tasks.Post h u b w0) as [[response [err |]] w1]
    end; simpl; try (eexists; reflexivity); reflexivity.
Qed.

(** [Run] returns nil exactly when the payload is encoded and the POST
    of the encoding returns no error. *)
Lemma Run_nil_iff {H : Type} {HH : tasks.Handler H}
    (task : tasks.Task) (account : Account) (handler : H) (w : World) :
  fst (tasks.Run task account handler w) = None <->
  exists data,
    json_Marshal (payloadOf task) = inl data
    /\ snd (fst (tasks.Post handler (tasks.GetBaseURL handler) (slice data)
                   (printing w (runningLine task account)))) = None.
Proof.
  destruct (json_Marshal (payloadOf task)) as [data | err] eqn:Henc.
  - pose proof (Run_posts task account handler w Henc) as Hrun.
    cbv zeta in Hrun.
    destruct (snd (fst (tasks.Post handler (tasks.GetBaseURL handler) (slice data)
                          (printing w (runningLine task account))))) as [e |] eqn:Hpost.
    + destruct Hrun as [msg Hrun]. rewrite Hrun. simpl. split; [discriminate |].
      intros (data' & Hd & Hnil). injection Hd as <-. congruence.
    + rewrite Hrun. simpl. split; [| reflexivity].
      intros _. exists data. split; [reflexivity | exact Hpost].
  - destruct (Run_marshal_error task account handler w Henc) as [msg Hrun].
    rewrite Hrun. simpl. split; [discriminate |].
    intros (data & Hd & _). discriminate Hd.
Qed.

(** C6.  [Run] of a task, one-time or recurrent, on a game handler:
    it returns nil exactly when [json.Marshal] encodes the payload and
    the POST of the encoding to the handler's base URL returns no
    error; when the encoding fails nothing is sent; when it succeeds
    the request sent is a POST of the encoding to [GetBaseURL]; and
    whenever the network answers that request with a status in
    [200, 300) and a body that reads to its end, [Run] returns nil
    whatever the body is. *)
Theorem Run_posts_payload_and_ignores_body (task : tasks.Task)
    (account : Account) (h : handler.GameHandler) (w : World) :
  let url := handler.GetBaseURL h in
  let c := handler.HttpClient h in
  (fst (tasks.Run task account h w) = None <->
     exists data,
       json_Marshal (payloadOf task) = inl data
       /\ snd (fst (handler.Post h url (slice data)
                      (printing w (runningLine task account)))) = None)
  /\ (forall err, json_Marshal (payloadOf task) = inr err ->
        wire (snd (tasks.Run task account h w)) = wire w)
  /\ (forall data, json_Marshal (payloadOf task) = inl data ->
        http_NewRequest_error http_MethodPost url = None ->
        wire (snd (tasks.Run task account h w))
        = (wire w ++ [requestOf c http_MethodPost url (slice data)])%list)
  /\ (forall data resp,
        json_Marshal (payloadOf task) = inl data ->
        http_NewRequest_error http_MethodPost url = None ->
        answer w (httpclient.client c) (requestOf c http_MethodPost url (slice data))
        = inl resp ->
        200 <= StatusCode resp < 300 ->
        readError (Body resp) = None ->
        fst (tasks.Run task account h w) = None).
Proof.
  intros url c. split; [| split; [| split]].
  - exact (Run_nil_iff task account h w).
  - intros err Henc.
    destruct (Run_marshal_error task account h w Henc) as [msg Hrun].
    rewrite Hrun. reflexivity.
  - intros data Henc Hreq.
    pose proof (Run_posts task account h w Henc) as Hrun. cbv zeta in Hrun.
    change (tasks.Post h (tasks.GetBaseURL h)) with (handler.Post h url) in Hrun.
    assert (Hwire :
      wire (snd (handler.Post h url (slice data)
                   (printing w (runningLine task account))))
      = (wire w ++ [requestOf c http_MethodPost url (slice data)])%list).
    { rewrite handler_Post_bodyOf. simpl snd. unfold httpclient.Post.
      rewrite DoRequest_wire, Hreq. reflexivity. }
    destruct (snd (fst (handler.Post h url (slice data)
                          (printing w (runningLine task account))))) as [e |].
    + destruct Hrun as [msg Hrun]. rewrite Hrun. exact Hwire.
    + rewrite Hrun. exact Hwire.
  - intros data resp Henc Hreq Hans Hok Hread.
    refine (proj2 (Run_nil_iff task account h w) _).
    exists data. split; [exact Henc |].
    change (tasks.Post h (tasks.GetBaseURL h)) with (handler.Post h url).
    rewrite handler_Post_bodyOf. simpl fst. unfold httpclient.Post.
    rewrite (DoRequest_sent (handler.HttpClient h) http_MethodPost url
               (slice data) _ Hreq).
    cbv zeta. simpl fst.
    fold c. unfold answer in Hans |- *. simpl network. simpl wire.
    rewrite Hans.
    assert (H2xx : is2xx (StatusCode resp) = true).
    { unfold is2xx. apply andb_true_iff. split; lia. }
    rewrite H2xx. simpl. rewrite Hread. reflexivity.
Qed.

End Running.

(** ** The retry-with-refresh sequence *)

Section Retrying.
Context {L : GoLib}.
Import types.

Lemma runsStarted_app (out new : list Output) :
  runsStarted (out ++ new) = (runsStarted out + runsStarted new)%nat.
Proof.
  unfold runsStarted. rewrite filter_app. apply length_app.
Qed.

(** What a [Run] on a game handler prints: its opening line, and its
    closing line when it returns nil; it leaves the network as it is. *)
Lemma Run_printed (task : tasks.Task) (account : Account)
    (h : handler.GameHandler) (w : World) :
  network (snd (tasks.Run task account h w)) = network w
  /\ exists closing,
       printed (snd (tasks.Run task account h w))
       = (printed w ++ runningLine task account :: closing)%list
       /\ Forall (fun line => exists response,
                    line = executedLine task account response) closing.
Proof.
  destruct (json_Marshal (payloadOf task)) as [data | err] eqn:Henc.
  - pose proof (Run_posts task account h w Henc) as Hrun. cbv zeta in Hrun.
    change (tasks.Post h (tasks.GetBaseURL h))
      with (handler.Post h (handler.GetBaseURL h)) in Hrun.
    destruct (handler_Post_frame h (handler.GetBaseURL h) (slice data)
                (printing w (runningLine task account))) as [Hprinted Hnet].
    destruct (snd (fst (handler.Post h (handler.GetBaseURL h) (slice data)
                          (printing w (runningLine task account))))) as [e |].
    + destruct Hrun as [msg Hrun]. rewrite Hrun. simpl snd.
      split; [exact Hnet |]. exists []. rewrite Hprinted.
      split; [reflexivity | constructor].
    + rewrite Hrun. simpl snd. split; [exact Hnet |].
      eexists [_]. simpl printed. rewrite Hprinted. simpl.
      rewrite <- app_assoc. split; [reflexivity |].
      constructor; [eexists; reflexivity | constructor].
  - destruct (Run_marshal_error task account h w Henc) as [msg Hrun].
    rewrite Hrun. split; [reflexivity |]. exists [].
    split; [reflexivity | constructor].
Qed.

Lemma executedLine_not_running (task : tasks.Task) (account : Account)
    (response : byteSlice) :
  isRunning (executedLine task account response) = false.
Proof. destruct task; reflexivity. Qed.

Lemma runningLine_running (task : tasks.Task) (account : Account) :
  isRunning (runningLine task account) = true.
Proof. destruct task; reflexivity. Qed.

(** Every call of [Run] adds one to the number of runs started. *)
Lemma Run_runsStarted (task : tasks.Task) (account : Account)
    (h : handler.GameHandler) (w : World) :
  runsStarted (printed (snd (tasks.Run task account h w)))
  = S (runsStarted (printed w)).
Proof.
  destruct (Run_printed task account h w) as (_ & closing & Hprinted & Hclosing).
  assert (Hnone : filter isRunning closing = []).
  { clear Hprinted.
    induction Hclosing as [| line closing [response ->] _ IH]; simpl.
    - reflexivity.
    - rewrite executedLine_not_running. exact IH. }
  rewrite Hprinted, runsStarted_app. unfold runsStarted at 2. simpl filter.
  rewrite runningLine_running, Hnone. simpl. lia.
Qed.

(** [runTaskWithRetry], step by step. *)
Lemma runTaskWithRetry_steps (h : handler.GameHandler) (account : Account)
    (task : tasks.Task) (w : World) :
  handler.runTaskWithRetry h account task w =
    match fst (tasks.Run task account h w) with
    | None => (None, snd (tasks.Run task account h w))
    | Some _ =>
        let w1 := snd (tasks.Run task account h w) in
        if notNil (fst (fst (refreshFor h account w1)))
        then (None, snd (refreshFor h account w1))
        else (None, snd (tasks.Run task account h (snd (refreshFor h account w1))))
    end.
Proof.
  unfold handler.runTaskWithRetry, bind. fold (refreshFor h account).
  destruct (tasks.Run task account h w) as [[e1 |] w1]; simpl; [| reflexivity].
  destruct (refreshFor h account w1) as [[refreshErr ignored] w2]; simpl.
  destruct (notNil refreshErr); [reflexivity |].
  destruct (tasks.Run task account h w2) as [[e2 |] w3]; reflexivity.
Qed.

(** The first result of the refresh call is non-nil exactly when its
    error is nil. *)
Lemma refreshFor_notNil (h : handler.GameHandler) (account : Account) (w : World) :
  notNil (fst (fst (refreshFor h account w))) = true
  <-> snd (fst (refreshFor h account w)) = None.
Proof.
  unfold refreshFor. rewrite refreshGameData_bodyOf. cbv zeta. simpl fst.
  apply bodyOf_notNil.
Qed.

Lemma refreshFor_frame (h : handler.GameHandler) (account : Account) (w : World) :
  printed (snd (refreshFor h account w)) = printed w
  /\ network (snd (refreshFor h account w)) = network w.
Proof. apply refreshGameData_frame. Qed.

(** C1, as the code has it.  When the first [Run] fails,
    [runTaskWithRetry] calls [Run] once in all if the refresh call
    returns no error, and twice in all if the refresh call returns an
    error: the test on the results of the refresh call looks at the
    body, which is nil exactly when there is an error. *)
Theorem runTaskWithRetry_retries_after_failed_refresh
    (h : handler.GameHandler) (account : Account) (task : tasks.Task)
    (w : World) (err : error) :
  fst (tasks.Run task account h w) = Some err ->
  let w1 := snd (tasks.Run task account h w) in
  let w' := snd (handler.runTaskWithRetry h account task w) in
  (snd (fst (refreshFor h account w1)) = None ->
     runsStarted (printed w') = (runsStarted (printed w) + 1)%nat)
  /\ (snd (fst (refreshFor h account w1)) <> None ->
        runsStarted (printed w') = (runsStarted (printed w) + 2)%nat).
Proof.
  intros Hfirst w1 w'. subst w'.
  rewrite runTaskWithRetry_steps, Hfirst. cbv zeta. fold w1.
  destruct (refreshFor_frame h account w1) as [Hprinted _].
  pose proof (refreshFor_notNil h account w1) as Hnil.
  pose proof (Run_runsStarted task account h w) as Hone. fold w1 in Hone.
  destruct (notNil (fst (fst (refreshFor h account w1)))); simpl snd.
  - split.
    + intros _. rewrite Hprinted, Hone. lia.
    + intros Hfailed. exfalso. apply Hfailed. apply Hnil. reflexivity.
  - split.
    + intros Hok. apply Hnil in Hok. discriminate Hok.
    + intros _. rewrite Run_runsStarted, Hprinted, Hone. lia.
Qed.

(** [runTaskWithRetry] returns the nil error. *)
Lemma runTaskWithRetry_nil (h : handler.GameHandler) (account : Account)
    (task : tasks.Task) (w : World) :
  fst (handler.runTaskWithRetry h account task w) = None.
Proof.
  rewrite runTaskWithRetry_steps.
  destruct (fst (tasks.Run task account h w)); [| reflexivity].
  cbv zeta.
  destruct (notNil (fst (fst (refreshFor h account
                                (snd (tasks.Run task account h w))))));
    reflexivity.
Qed.

(** What [runTaskWithRetry] prints are lines of the [Run] of its task. *)
Lemma runTaskWithRetry_printed (h : handler.GameHandler) (account : Account)
    (task : tasks.Task) (w : World) :
  exists new,
    printed (snd (handler.runTaskWithRetry h account task w))
    = (printed w ++ new)%list
    /\ Forall (lineOf task account) new.
Proof.
  assert (Hrun : forall w0, exists new,
    printed (snd (tasks.Run task account h w0)) = (printed w0 ++ new)%list
    /\ Forall (lineOf task account) new).
  { intros w0.
    destruct (Run_printed task account h w0) as (_ & closing & Hp & Hc).
    exists (runningLine task account :: closing). split; [exact Hp |].
    constructor; [left; reflexivity |].
    eapply Forall_impl; [| exact Hc]. intros line Hline. right. exact Hline. }
  rewrite runTaskWithRetry_steps.
  destruct (fst (tasks.Run task account h w)); [| apply Hrun].
  cbv zeta.
  destruct (Hrun w) as (new1 & Hp1 & Hl1).
  destruct (refreshFor_frame h account (snd (tasks.Run task account h w)))
    as [Hp2 _].
  destruct (notNil (fst (fst (refreshFor h account
                                (snd (tasks.Run task account h w)))))); simpl snd.
  - exists new1. rewrite Hp2. split; assumption.
  - destruct (Hrun (snd (refreshFor h account (snd (tasks.Run task account h w)))))
      as (new3 & Hp3 & Hl3).
    exists (new1 ++ new3)%list. rewrite Hp3, Hp2, Hp1, app_assoc.
    split; [reflexivity | apply Forall_app; split; assumption].
Qed.

End Retrying.

(** ** RunTasks *)

Section Scheduling.
Context {L : GoLib}.
Import types.

Lemma lineOf_not_error (task : tasks.Task) (account : Account) (line : Output) :
  lineOf task account line -> isErrorLine line = false.
Proof.
  intros [-> | [response ->]]; destruct task; reflexivity.
Qed.

Lemma lineOf_recurrent (t : tasks.RecurrentTask) (account : Account)
    (line : Output) :
  lineOf (tasks.Recurrent t) account line -> isOneTimeLine line = false.
Proof.
  intros [-> | [response ->]]; reflexivity.
Qed.

(** The step at a one-time task and the step at a tick: the retry
    sequence runs and, as it returns nil, nothing is logged. *)
Lemma step_oneTime (h : handler.GameHandler) (account : Account)
    (t : tasks.OneTimeTask) (rest : list tasks.Task) (w : World) :
  handler.step h (handler.Ranging account (tasks.OneTime t :: rest)) w
  = (handler.Ranging account rest,
     snd (handler.runTaskWithRetry h account (tasks.OneTime t) w)).
Proof.
  unfold handler.step, bind.
  pose proof (runTaskWithRetry_nil h account (tasks.OneTime t) w) as Hnil.
  destruct (handler.runTaskWithRetry h account (tasks.OneTime t) w) as [err w1].
  simpl in Hnil. subst err. reflexivity.
Qed.

Lemma step_tick (h : handler.GameHandler) (account : Account)
    (t : tasks.RecurrentTask) (rest : list tasks.Task) (w : World) :
  handler.step h (handler.Ticking account t rest) w
  = (handler.Ticking account t rest,
     snd (handler.runTaskWithRetry h account (tasks.Recurrent t) w)).
Proof.
  unfold handler.step, bind.
  pose proof (runTaskWithRetry_nil h account (tasks.Recurrent t) w) as Hnil.
  destruct (handler.runTaskWithRetry h account (tasks.Recurrent t) w) as [err w1].
  simpl in Hnil. subst err. reflexivity.
Qed.

(** No step logs an error. *)
Lemma step_no_error_line (h : handler.GameHandler) (g : handler.Goroutine)
    (w : World) :
  filter isErrorLine (printed (snd (handler.step h g w)))
  = filter isErrorLine (printed w).
Proof.
  assert (Hretry : forall account task,
    filter isErrorLine (printed (snd (handler.runTaskWithRetry h account task w)))
    = filter isErrorLine (printed w)).
  { intros account task.
    destruct (runTaskWithRetry_printed h account task w) as (new & Hp & Hl).
    rewrite Hp, filter_app, (filter_none isErrorLine (l := new)).
    - apply app_nil_r.
    - eapply Forall_impl; [| exact Hl].
      intros line. apply lineOf_not_error. }
  destruct g as [account [| [t | t] rest] | account t rest | account | account].
  - reflexivity.
  - rewrite step_oneTime. apply Hretry.
  - simpl. destruct (tasks.Interval t <=? 0); reflexivity.
  - rewrite step_tick. apply Hretry.
  - reflexivity.
  - reflexivity.
Qed.

(** A goroutine at a recurrent task stays there, and its steps print
    no line of a one-time task. *)
Lemma step_atRecurrent (h : handler.GameHandler) (g : handler.Goroutine)
    (w : World) :
  atRecurrent g ->
  atRecurrent (fst (handler.step h g w))
  /\ filter isOneTimeLine (printed (snd (handler.step h g w)))
     = filter isOneTimeLine (printed w).
Proof.
  destruct g as [account [| [t | t] rest] | account t rest | account | account];
    intros Hat; simpl in Hat; try contradiction.
  - simpl. destruct (tasks.Interval t <=? 0); split; simpl; trivial.
  - rewrite step_tick. cbn [fst snd atRecurrent]. split; [trivial |].
    destruct (runTaskWithRetry_printed h account (tasks.Recurrent t) w)
      as (new & Hp & Hl).
    rewrite Hp, filter_app, (filter_none isOneTimeLine (l := new)).
    + apply app_nil_r.
    + eapply Forall_impl; [| exact Hl].
      intros line. apply lineOf_recurrent.
  - split; simpl; trivial.
Qed.

(** A goroutine held by a recurrent task stays held. *)
Lemma step_heldBy (h : handler.GameHandler) (r : tasks.RecurrentTask)
    (post : list tasks.Task) (g : handler.Goroutine) (w : World) :
  heldBy r post g -> heldBy r post (fst (handler.step h g w)).
Proof.
  destruct g as [account [| [t | t] rest] | account t rest | account | account];
    intros Hheld; simpl in Hheld.
  - destruct Hheld as [[| x pre] Hpre]; discriminate Hpre.
  - rewrite step_oneTime. simpl.
    destruct Hheld as [[| x pre] Hpre]; [discriminate Hpre |].
    injection Hpre as _ Hrest. exists pre. exact Hrest.
  - simpl. destruct (tasks.Interval t <=? 0); simpl; [trivial |].
    destruct Hheld as [[| x pre] Hpre].
    + injection Hpre as Ht Hrest. left. split; assumption.
    + injection Hpre as _ Hrest. right. exists pre. exact Hrest.
  - rewrite step_tick. simpl. exact Hheld.
  - simpl. trivial.
  - contradiction.
Qed.

(** A property of goroutines that steps keep, together with a kind of
    line that the steps of such goroutines do not print, carries over
    to every schedule. *)
Lemma run_invariant (h : handler.GameHandler) (I : handler.Goroutine -> Prop)
    (P : Output -> bool) :
  (forall g w, I g ->
     I (fst (handler.step h g w))
     /\ filter P (printed (snd (handler.step h g w))) = filter P (printed w)) ->
  forall schedule gs w,
    Forall I gs ->
    Forall I (fst (handler.run h schedule gs w))
    /\ filter P (printed (snd (handler.run h schedule gs w)))
       = filter P (printed w).
Proof.
  intros Hstep. induction schedule as [| i schedule IH]; intros gs w Hgs; simpl.
  - split; [exact Hgs | reflexivity].
  - destruct (existsb handler.isPanicked gs).
    + split; [exact Hgs | reflexivity].
    + destruct (nth_error gs i) as [g |] eqn:Hnth.
      * unfold bind.
        assert (Hg : I g).
        { apply nth_error_In in Hnth.
          rewrite Forall_forall in Hgs. apply Hgs. exact Hnth. }
        destruct (Hstep g w Hg) as [Hg' Hprinted].
        destruct (handler.step h g w) as [g' w1]. simpl in Hg', Hprinted.
        destruct (IH (replace i g' gs) w1
                    (@Forall_replace _ I i g' gs Hg' Hgs)) as [Hall Hp].
        split; [exact Hall | congruence].
      * apply IH. exact Hgs.
Qed.

Lemma run_length (h : handler.GameHandler) (schedule : list nat) :
  forall gs w,
    List.length (fst (handler.run h schedule gs w)) = List.length gs.
Proof.
  induction schedule as [| i schedule IH]; intros gs w; simpl; [reflexivity |].
  destruct (existsb handler.isPanicked gs); [reflexivity |].
  destruct (nth_error gs i) as [g |]; [| apply IH].
  unfold bind. destruct (handler.step h g w) as [g' w1].
  rewrite IH. apply replace_length.
Qed.

(** While a goroutine is held, [wg.Wait()] does not return. *)
Lemma heldBy_waits (r : tasks.RecurrentTask) (post : list tasks.Task)
    (gs : list handler.Goroutine) :
  gs <> [] -> Forall (heldBy r post) gs -> handler.waitReturns gs = false.
Proof.
  intros Hne Hheld. destruct Hheld as [| g gs Hg _]; [congruence |].
  simpl. destruct g; simpl in Hg; try reflexivity. contradiction.
Qed.

(** C3.  [runTaskWithRetry] returns the nil error for every account,
    task and world, whichever of the first [Run], the refresh call and
    the second [Run] fail; and under every schedule [RunTasks] logs no
    error of a task. *)
Theorem task_failures_do_not_propagate (h : handler.GameHandler) :
  (forall account task w,
     fst (handler.runTaskWithRetry h account task w) = None)
  /\ (forall schedule w,
        filter isErrorLine (printed (snd (handler.RunTasks h schedule w)))
        = filter isErrorLine (printed w)).
Proof.
  split.
  - intros account task w. apply runTaskWithRetry_nil.
  - intros schedule w. unfold handler.RunTasks.
    apply (@run_invariant h (fun _ => True) isErrorLine).
    + intros g w0 _. split; [trivial | apply step_no_error_line].
    + apply Forall_forall. trivial.
Qed.

(** Goroutines never get past a recurrent task of the list. *)
Lemma RunTasks_heldBy (h : handler.GameHandler) (pre post : list tasks.Task)
    (r : tasks.RecurrentTask) (schedule : list nat) (w : World) :
  handler.Tasks h = (pre ++ tasks.Recurrent r :: post)%list ->
  Forall (heldBy r post) (fst (handler.RunTasks h schedule w))
  /\ (handler.Accounts h <> [] ->
        handler.waitReturns (fst (handler.RunTasks h schedule w)) = false).
Proof.
  intros Htasks.
  assert (Hspawn : Forall (heldBy r post) (handler.spawn h)).
  { unfold handler.spawn. apply Forall_forall. intros g Hg.
    apply in_map_iff in Hg. destruct Hg as (account & <- & _).
    simpl. exists pre. exact Htasks. }
  assert (Hheld : Forall (heldBy r post) (fst (handler.RunTasks h schedule w))).
  { unfold handler.RunTasks.
    apply (@run_invariant h (heldBy r post) (fun _ => false)); [| exact Hspawn].
    intros g w0 Hg. split; [apply step_heldBy; exact Hg |].
    generalize (printed (snd (handler.step h g w0))), (printed w0).
    intros l1 l2.
    assert (Hnone : forall l : list Output, filter (fun _ => false) l = [])
      by (induction l; auto).
    now rewrite !Hnone. }
  split; [exact Hheld |].
  intros Haccounts. apply (heldBy_waits (r := r) (post := post)); [| exact Hheld].
  intros Hnil.
  pose proof (run_length h schedule (handler.spawn h) w) as Hlen.
  unfold handler.RunTasks in Hnil. rewrite Hnil in Hlen.
  unfold handler.spawn in Hlen. rewrite length_map in Hlen.
  destruct (handler.Accounts h); [congruence | discriminate Hlen].
Qed.

(** A goroutine with one-time tasks only ahead, given a step for each
    task and one more, returns. *)
Lemma run_to_return (h : handler.GameHandler) (ts : list tasks.Task) :
  allOneTime ts = true ->
  forall (done rest : list handler.Goroutine) (account : Account)
         (schedule : list nat) (w : World),
    existsb handler.isPanicked (done ++ handler.Ranging account ts :: rest) = false ->
    exists w',
      handler.run h (repeat (List.length done) (S (List.length ts)) ++ schedule)
        (done ++ handler.Ranging account ts :: rest) w
      = handler.run h schedule (done ++ handler.Returned account :: rest) w'.
Proof.
  induction ts as [| task ts IH]; intros Hall done rest account schedule w Hcalm.
  - exists w. simpl repeat. simpl app. cbn [handler.run].
    rewrite Hcalm, nth_error_middle. unfold bind. simpl handler.step.
    unfold ret. rewrite replace_middle. reflexivity.
  - simpl in Hall. apply andb_true_iff in Hall. destruct Hall as [Htask Hall].
    destruct task as [t | t]; [| discriminate Htask].
    change (repeat (List.length done) (S (List.length (tasks.OneTime t :: ts)))
              ++ schedule)%list
      with (List.length done
              :: (repeat (List.length done) (S (List.length ts)) ++ schedule))%list.
    cbn [handler.run]. rewrite Hcalm, nth_error_middle. unfold bind.
    rewrite step_oneTime, replace_middle.
    apply (IH Hall).
    rewrite existsb_middle in Hcalm |- *. exact Hcalm.
Qed.

(** Goroutines with one-time tasks only ahead, each given its steps in
    turn, all return. *)
Lemma run_all_return (h : handler.GameHandler) (ts : list tasks.Task)
    (accounts : list Account) :
  allOneTime ts = true ->
  forall (done : list handler.Goroutine) (w : World),
    existsb handler.isPanicked done = false ->
    exists w',
      handler.run h
        (eachInTurn (S (List.length ts)) (List.length done) (List.length accounts))
        (done ++ map (fun account => handler.Ranging account ts) accounts) w
      = ((done ++ map handler.Returned accounts)%list, w').
Proof.
  intros Hall. induction accounts as [| account accounts IH]; intros done w Hcalm.
  - exists w. reflexivity.
  - unfold eachInTurn. cbn [seq flat_map map List.length].
    fold (eachInTurn (S (List.length ts)) (S (List.length done))
            (List.length accounts)).
    assert (Hcalm' :
      existsb handler.isPanicked
        (done ++ handler.Ranging account ts
              :: map (fun account => handler.Ranging account ts) accounts) = false).
    { rewrite existsb_middle, Hcalm. simpl.
      clear. induction accounts as [| a accounts IHa]; simpl; [reflexivity | exact IHa]. }
    destruct (@run_to_return h ts Hall done
                (map (fun account => handler.Ranging account ts) accounts)
                account
                (eachInTurn (S (List.length ts)) (S (List.length done))
                   (List.length accounts)) w Hcalm') as [w1 Hrun].
    rewrite Hrun.
    replace (done ++ handler.Returned account
                  :: map (fun account => handler.Ranging account ts) accounts)%list
      with ((done ++ [handler.Returned account])
              ++ map (fun account => handler.Ranging account ts) accounts)%list
      by (rewrite <- app_assoc; reflexivity).
    replace (S (List.length done))
      with (List.length (done ++ [handler.Returned account]))
      by (rewrite length_app; simpl; lia).
    destruct (IH (done ++ [handler.Returned account])%list w1) as [w' Hrest].
    { rewrite existsb_app, Hcalm. reflexivity. }
    exists w'. rewrite Hrest, <- app_assoc. reflexivity.
Qed.

(** Without recurrent tasks [RunTasks] returns: once every goroutine
    has had a step for each task and one more, [wg.Wait()] returns. *)
Lemma RunTasks_returns_without_recurrent (h : handler.GameHandler) (w : World) :
  allOneTime (handler.Tasks h) = true ->
  handler.waitReturns
    (fst (handler.RunTasks h
            (eachInTurn (S (List.length (handler.Tasks h))) 0
               (List.length (handler.Accounts h))) w)) = true.
Proof.
  intros Hall. unfold handler.RunTasks, handler.spawn.
  destruct (@run_all_return h (handler.Tasks h) (handler.Accounts h) Hall [] w
              eq_refl) as [w' Hrun].
  simpl in Hrun. rewrite Hrun. simpl.
  unfold handler.waitReturns. clear Hrun.
  induction (handler.Accounts h) as [| a accounts IHa]; simpl; [reflexivity | exact IHa].
Qed.

(** C2, as the code has it.  With a recurrent task in the task list
    and at least one account, under every schedule: [wg.Wait()] has not
    returned, so [RunTasks] does not return; no goroutine has got past
    the recurrent task, each being before it, or waiting on its ticker
    with all later tasks ahead, or stopped by the panic of a ticker;
    and when the recurrent task is the first of the list, no line of a
    one-time task is printed. *)
Theorem RunTasks_blocks_at_recurrent (h : handler.GameHandler)
    (pre : list tasks.Task) (r : tasks.RecurrentTask) (post : list tasks.Task)
    (schedule : list nat) (w : World) :
  handler.Tasks h = (pre ++ tasks.Recurrent r :: post)%list ->
  handler.Accounts h <> [] ->
  handler.waitReturns (fst (handler.RunTasks h schedule w)) = false
  /\ Forall (heldBy r post) (fst (handler.RunTasks h schedule w))
  /\ (pre = [] ->
      filter isOneTimeLine (printed (snd (handler.RunTasks h schedule w)))
      = filter isOneTimeLine (printed w)).
Proof.
  intros Htasks Haccounts.
  destruct (RunTasks_heldBy h pre post r schedule w Htasks) as [Hheld Hwait].
  split; [exact (Hwait Haccounts) | split; [exact Hheld |]].
  intros ->. unfold handler.RunTasks.
  apply (@run_invariant h atRecurrent isOneTimeLine).
  - intros g w0. apply step_atRecurrent.
  - unfold handler.spawn. apply Forall_forall. intros g Hg.
    apply in_map_iff in Hg. destruct Hg as (account & <- & _).
    rewrite Htasks. simpl. trivial.
Qed.

End Scheduling.

(** ** AddTask *)

Section Adding.
Context {L : GoLib}.

(** [AddTask] with the mutex free. *)
Lemma AddTask_unlocked (h : handler.GameHandler) (task : tasks.Task) :
  handler.mu h = unlocked ->
  handler.AddTask h task
  = Some (handler.withTasks h (handler.Tasks h ++ [task])).
Proof.
  intros Hmu. unfold handler.AddTask. rewrite Hmu. simpl.
  unfold handler.withMu, handler.withTasks. simpl. rewrite Hmu. reflexivity.
Qed.

(** With the mutex held the call does not return. *)
Lemma AddTask_locked (h : handler.GameHandler) (task : tasks.Task) :
  handler.mu h = locked -> handler.AddTask h task = None.
Proof.
  intros Hmu. unfold handler.AddTask. rewrite Hmu. reflexivity.
Qed.

(** Calls that assign to the handler keep the tasks it has, in place,
    and leave the mutex free. *)
Lemma mutateAll_extends (ms : list Mutation) :
  forall h : handler.GameHandler,
    handler.mu h = unlocked ->
    exists h' added,
      mutateAll h ms = Some h'
      /\ handler.Tasks h' = (handler.Tasks h ++ added)%list
      /\ handler.mu h' = unlocked.
Proof.
  induction ms as [| m ms IH]; intros h Hmu; simpl.
  - exists h, []. rewrite app_nil_r. repeat split. exact Hmu.
  - destruct m as [url | task]; simpl.
    + destruct (IH (handler.SetBaseURL h url) Hmu) as (h' & added & Hall & Ht & Hm).
      exists h', added. repeat split; assumption.
    + rewrite (AddTask_unlocked h task Hmu).
      destruct (IH (handler.withTasks h (handler.Tasks h ++ [task])) Hmu)
        as (h' & added & Hall & Ht & Hm).
      exists h', ([task] ++ added)%list. simpl in Ht.
      rewrite app_assoc. repeat split; assumption.
Qed.

(** Calls of [AddTask] one after the other append their tasks in
    order. *)
Lemma AddTask_all (ts : list tasks.Task) :
  forall h : handler.GameHandler,
    handler.mu h = unlocked ->
    mutateAll h (map CallAddTask ts)
    = Some (handler.withTasks h (handler.Tasks h ++ ts)).
Proof.
  induction ts as [| t ts IH]; intros h Hmu; simpl.
  - rewrite app_nil_r. destruct h; reflexivity.
  - rewrite (AddTask_unlocked h t Hmu).
    rewrite (IH (handler.withTasks h (handler.Tasks h ++ [t])) Hmu).
    unfold handler.withTasks. simpl. rewrite <- app_assoc. reflexivity.
Qed.

(** *** Calls running at once *)

(** A statement of a call keeps the calls serialized. *)
Lemma advance_serialized (n : nat) (h h' : handler.GameHandler)
    (calls : list handler.AddTaskCall) (i : nat) (c c' : handler.AddTaskCall) :
  serialized n h calls ->
  nth_error calls i = Some c ->
  handler.advance h c = Some (h', c') ->
  serialized n h' (replace i c' calls).
Proof.
  intros (Hlen & Hheld & Hread) Hnth Hadv.
  pose proof (@countIf_replace _ hasAppended i c' c calls Hnth) as Happ.
  pose proof (@countIf_replace _ holdsMutex i c' c calls Hnth) as Hmut.
  assert (Hc : readsCurrent h c).
  { rewrite Forall_forall in Hread. apply Hread.
    eapply nth_error_In. exact Hnth. }
  destruct c as [task | task | task old | |]; simpl in Hadv.
  - (* Lock *)
    destruct (handler.mu h) eqn:Hmu; simpl in Hadv; [| discriminate Hadv].
    injection Hadv as <- <-. simpl in Happ, Hmut.
    unfold serialized. simpl. repeat split.
    + lia.
    + lia.
    + apply Forall_replace; [exact I |].
      eapply Forall_impl; [| exact Hread].
      intros [| | | |]; simpl; trivial.
  - (* read of the slice *)
    injection Hadv as <- <-. simpl in Happ, Hmut.
    unfold serialized. repeat split.
    + lia.
    + destruct (handler.mu h); lia.
    + apply Forall_replace; [reflexivity | exact Hread].
  - (* assignment *)
    injection Hadv as <- <-. simpl in Happ, Hmut, Hc. subst old.
    assert (Hone : countIf holdsMutex calls = 1%nat).
    { pose proof (@countIf_positive _ holdsMutex i _ calls Hnth eq_refl) as Hpos.
      destruct (handler.mu h); lia. }
    unfold serialized. simpl. repeat split.
    + rewrite length_app. simpl. lia.
    + destruct (handler.mu h); lia.
    + apply (@Forall_replace_sole _ holdsMutex (readsCurrent _) i
               handler.AtUnlock (handler.AtWrite task (handler.Tasks h)) calls);
        try assumption; try reflexivity.
      intros [| | | |]; simpl; trivial; discriminate.
  - (* Unlock *)
    destruct (handler.mu h) eqn:Hmu; simpl in Hadv; [discriminate Hadv |].
    injection Hadv as <- <-. simpl in Happ, Hmut.
    unfold serialized. simpl. repeat split.
    + lia.
    + lia.
    + apply Forall_replace; [exact I |].
      eapply Forall_impl; [| exact Hread].
      intros [| | | |]; simpl; trivial.
  - discriminate Hadv.
Qed.

(** So does every schedule, which also keeps the number of calls. *)
Lemma interleave_serialized (n : nat) (schedule : list nat) :
  forall (h : handler.GameHandler) (calls : list handler.AddTaskCall),
    serialized n h calls ->
    serialized n (fst (handler.interleave h calls schedule))
               (snd (handler.interleave h calls schedule))
    /\ List.length (snd (handler.interleave h calls schedule)) = List.length calls.
Proof.
  induction schedule as [| i schedule IH]; intros h calls Hser; simpl.
  - split; [exact Hser | reflexivity].
  - destruct (nth_error calls i) as [c |] eqn:Hnth; [| apply IH; exact Hser].
    destruct (handler.advance h c) as [[h' c'] |] eqn:Hadv; [| apply IH; exact Hser].
    destruct (IH h' (replace i c' calls)
                (@advance_serialized n h h' calls i c c' Hser Hnth Hadv))
      as [Hser' Hlen].
    split; [exact Hser' |]. rewrite Hlen. apply replace_length.
Qed.

(** Calls about to start on a handler whose mutex is free are
    serialized. *)
Lemma serialized_start (h : handler.GameHandler) (ts : list tasks.Task) :
  handler.mu h = unlocked ->
  serialized (List.length (handler.Tasks h)) h (map handler.AtLock ts).
Proof.
  intros Hmu. unfold serialized. rewrite Hmu.
  assert (Hnone : forall f, (forall t, f (handler.AtLock t) = false) ->
                            countIf f (map handler.AtLock ts) = 0%nat).
  { intros f Hf. unfold countIf. induction ts as [| t ts IH]; simpl.
    - reflexivity.
    - rewrite Hf. exact IH. }
  rewrite !Hnone by reflexivity. repeat split; [lia |].
  apply Forall_forall. intros c Hc. apply in_map_iff in Hc.
  destruct Hc as (t & <- & _). exact I.
Qed.

(** No update is lost: when calls of [AddTask] started together on a
    handler have all returned, however they were interleaved, the task
    list has one more task for each call. *)
Lemma AddTask_interleaved (h : handler.GameHandler) (ts : list tasks.Task)
    (schedule : list nat) :
  handler.mu h = unlocked ->
  let h' := fst (handler.interleave h (map handler.AtLock ts) schedule) in
  let calls' := snd (handler.interleave h (map handler.AtLock ts) schedule) in
  forallb handler.isFinished calls' = true ->
  List.length (handler.Tasks h')
  = (List.length (handler.Tasks h) + List.length ts)%nat.
Proof.
  intros Hmu h' calls' Hdone.
  destruct (@interleave_serialized _ schedule h (map handler.AtLock ts)
              (@serialized_start h ts Hmu))
    as [(Hlen & _ & _) Hcalls].
  fold h' calls' in Hlen, Hcalls.
  rewrite length_map in Hcalls.
  assert (Hall : countIf hasAppended calls' = List.length calls').
  { apply countIf_all. rewrite forallb_forall in Hdone |- *.
    intros c Hc. specialize (Hdone c Hc). destruct c; try discriminate Hdone.
    reflexivity. }
  lia.
Qed.

Lemma interleave_turn (h h' : handler.GameHandler)
    (done rest : list handler.AddTaskCall) (c c' : handler.AddTaskCall)
    (schedule : list nat) :
  handler.advance h c = Some (h', c') ->
  handler.interleave h (done ++ c :: rest) (List.length done :: schedule)
  = handler.interleave h' (done ++ c' :: rest) schedule.
Proof.
  intros Hadv. simpl. rewrite nth_error_middle, Hadv, replace_middle.
  reflexivity.
Qed.

(** A call that is given four turns in a row, with the mutex free, runs
    from its start to its end. *)
Lemma interleave_call (h : handler.GameHandler)
    (done rest : list handler.AddTaskCall) (t : tasks.Task)
    (schedule : list nat) :
  handler.mu h = unlocked ->
  let k := List.length done in
  handler.interleave h (done ++ handler.AtLock t :: rest)
    (k :: k :: k :: k :: schedule)
  = handler.interleave (handler.withTasks h (handler.Tasks h ++ [t]))
      (done ++ handler.Finished :: rest) schedule.
Proof.
  intros Hmu k. subst k.
  rewrite (@interleave_turn h (handler.withMu h locked) done rest
             (handler.AtLock t) (handler.AtRead t))
    by (simpl; rewrite Hmu; reflexivity).
  rewrite (@interleave_turn (handler.withMu h locked) (handler.withMu h locked)
             done rest (handler.AtRead t)
             (handler.AtWrite t (handler.Tasks h)))
    by reflexivity.
  rewrite (@interleave_turn (handler.withMu h locked)
             (handler.withTasks (handler.withMu h locked) (handler.Tasks h ++ [t]))
             done rest (handler.AtWrite t (handler.Tasks h)) handler.AtUnlock)
    by reflexivity.
  rewrite (@interleave_turn
             (handler.withTasks (handler.withMu h locked) (handler.Tasks h ++ [t]))
             (handler.withTasks h (handler.Tasks h ++ [t]))
             done rest handler.AtUnlock handler.Finished).
  - reflexivity.
  - simpl. unfold handler.withMu, handler.withTasks. simpl.
    rewrite <- Hmu. reflexivity.
Qed.

(** The calls can all return: taken one after the other, each runs to
    its end, and the tasks are appended in the order of the calls. *)
Lemma AddTask_oneByOne (ts : list tasks.Task) :
  forall (h : handler.GameHandler) (done : list handler.AddTaskCall),
    handler.mu h = unlocked ->
    handler.interleave h (done ++ map handler.AtLock ts)
      (oneByOne (List.length done) (List.length ts))
    = (handler.withTasks h (handler.Tasks h ++ ts),
       (done ++ map (fun _ => handler.Finished) ts)%list).
Proof.
  induction ts as [| t ts IH]; intros h done Hmu.
  - simpl. rewrite !app_nil_r. destruct h; reflexivity.
  - unfold oneByOne. simpl seq. simpl flat_map. simpl map.
    fold (oneByOne (S (List.length done)) (List.length ts)).
    rewrite (@interleave_call h done (map handler.AtLock ts) t _ Hmu).
    replace (done ++ handler.Finished :: map handler.AtLock ts)%list
      with ((done ++ [handler.Finished]) ++ map handler.AtLock ts)%list
      by (rewrite <- app_assoc; reflexivity).
    replace (S (List.length done)) with (List.length (done ++ [handler.Finished]))
      by (rewrite length_app; simpl; lia).
    rewrite IH by exact Hmu.
    simpl. rewrite <- !app_assoc. reflexivity.
Qed.

(** C8.  On a handler whose mutex is free, [AddTask] returns, with the
    task appended at the end of the task list, the tasks stored before
    in place, the list longer by one and every other field as it was;
    no sequence of calls that assign to the handler removes or moves a
    stored task; [M] calls of [AddTask] one after the other leave the
    old list followed by the [M] tasks, of length the old length plus
    [M]; and [M] calls of [AddTask] running at once, however their
    statements are interleaved, leave a list of length the old length
    plus [M] once they have all returned, which they can. *)
Theorem AddTask_appends (h : handler.GameHandler) (task : tasks.Task) :
  handler.mu h = unlocked ->
  (exists h',
     handler.AddTask h task = Some h'
     /\ handler.Tasks h' = (handler.Tasks h ++ [task])%list
     /\ List.length (handler.Tasks h') = S (List.length (handler.Tasks h))
     /\ handler.GameName h' = handler.GameName h
     /\ handler.BaseURL h' = handler.BaseURL h
     /\ handler.Proxy h' = handler.Proxy h
     /\ handler.APIKey h' = handler.APIKey h
     /\ handler.Accounts h' = handler.Accounts h
     /\ handler.HttpClient h' = handler.HttpClient h
     /\ handler.mu h' = handler.mu h)
  /\ (forall ms, exists h' added,
        mutateAll h ms = Some h'
        /\ handler.Tasks h' = (handler.Tasks h ++ added)%list)
  /\ (forall ts, exists h',
        mutateAll h (map CallAddTask ts) = Some h'
        /\ handler.Tasks h' = (handler.Tasks h ++ ts)%list
        /\ List.length (handler.Tasks h')
           = (List.length (handler.Tasks h) + List.length ts)%nat)
  /\ (forall ts schedule,
        let after := handler.interleave h (map handler.AtLock ts) schedule in
        forallb handler.isFinished (snd after) = true ->
        List.length (handler.Tasks (fst after))
        = (List.length (handler.Tasks h) + List.length ts)%nat)
  /\ (forall ts,
        let after :=
          handler.interleave h (map handler.AtLock ts)
            (oneByOne 0 (List.length ts)) in
        forallb handler.isFinished (snd after) = true
        /\ handler.Tasks (fst after) = (handler.Tasks h ++ ts)%list).
Proof.
  intros Hmu. split; [| split; [| split; [| split]]].
  - exists (handler.withTasks h (handler.Tasks h ++ [task])).
    split; [apply AddTask_unlocked; exact Hmu |].
    simpl. rewrite length_app. simpl.
    repeat split; try reflexivity. lia.
  - intros ms.
    destruct (mutateAll_extends ms h Hmu) as (h' & added & Hall & Ht & _).
    exists h', added. split; assumption.
  - intros ts.
    exists (handler.withTasks h (handler.Tasks h ++ ts)).
    split; [apply AddTask_all; exact Hmu |].
    simpl. split; [reflexivity | apply length_app].
  - intros ts schedule after. apply AddTask_interleaved. exact Hmu.
  - intros ts after. subst after.
    pose proof (@AddTask_oneByOne ts h [] Hmu) as Hrun. simpl in Hrun.
    rewrite Hrun. simpl. split; [| reflexivity].
    clear. induction ts as [| t ts IH]; simpl; [reflexivity | exact IH].
Qed.

End Adding.

(** ** The properties at concrete inputs *)

(** C6 at a one-time task whose POST is answered with status 200: [Run]
    returns nil, and the request on the wire is the POST of the encoded
    payload to the base URL. *)
Lemma Run_posts_payload_and_ignores_body_witness :
  let h := demo.handlerWith [tasks.OneTime demo.daily] in
  let w := demo.worldOf [demo.ok "anything at all"] in
  fst (tasks.Run (tasks.OneTime demo.daily) demo.account h w) = None
  /\ wire (snd (tasks.Run (tasks.OneTime demo.daily) demo.account h w))
     = [mkRequest "POST" demo.gameURL (slice "{}") []].
Proof.
  intros h w.
  pose proof (Run_posts_payload_and_ignores_body (L := demo.lib)
                (tasks.OneTime demo.daily) demo.account h w)
    as (_ & _ & Hwire & Hnil).
  split.
  - refine (Hnil "{}" (mkResponse 200 (mkReadCloser "anything at all" None))
              eq_refl eq_refl eq_refl _ eq_refl).
    simpl. lia.
  - exact (Hwire "{}" eq_refl eq_refl).
Defined.

(** C1 at a one-time task whose first POST is answered with status 500.
    With the refresh call answered with status 200, [Run] is called
    once; with the refresh call answered with status 503, twice. *)
Lemma runTaskWithRetry_retries_after_failed_refresh_witness :
  let h := demo.handlerWith [tasks.OneTime demo.daily] in
  let task := tasks.OneTime demo.daily in
  let refreshed :=
    demo.worldOf [demo.status 500 "expired"; demo.ok "fresh"; demo.ok "done"] in
  let unrefreshed :=
    demo.worldOf [demo.status 500 "expired"; demo.status 503 "down"; demo.ok "done"] in
  runsStarted
    (printed (snd (handler.runTaskWithRetry h demo.account task refreshed))) = 1%nat
  /\ runsStarted
       (printed (snd (handler.runTaskWithRetry h demo.account task unrefreshed)))
     = 2%nat.
Proof.
  intros h task refreshed unrefreshed. split.
  - exact (proj1 (runTaskWithRetry_retries_after_failed_refresh (L := demo.lib)
                    h demo.account task refreshed eq_refl) eq_refl).
  - refine (proj2 (runTaskWithRetry_retries_after_failed_refresh (L := demo.lib)
                     h demo.account task unrefreshed eq_refl) _).
    discriminate.
Defined.

(** C2 at one account with the tasks [ping] (recurrent) and [daily]
    (one-time), after three steps of the account's goroutine: [RunTasks]
    has not returned and no line of [daily] is printed. *)
Lemma RunTasks_blocks_at_recurrent_witness :
  let h := demo.handlerWith [tasks.Recurrent demo.ping; tasks.OneTime demo.daily] in
  let w := demo.worldOf [demo.ok "a"; demo.ok "b"] in
  let schedule := [0; 0; 0]%nat in
  handler.waitReturns (fst (handler.RunTasks h schedule w)) = false
  /\ filter isOneTimeLine (printed (snd (handler.RunTasks h schedule w))) = [].
Proof.
  intros h w schedule.
  assert (Haccounts : handler.Accounts h <> []) by discriminate.
  pose proof (@RunTasks_blocks_at_recurrent demo.lib h [] demo.ping
                [tasks.OneTime demo.daily] schedule w eq_refl Haccounts)
    as (Hwait & _ & Hlines).
  split; [exact Hwait | exact (Hlines eq_refl)].
Defined.

(** C8 at a handler with one task: a second task is added; and two
    calls run at once, the second waiting for the mutex while the first
    holds it, after which the list has three tasks. *)
Lemma AddTask_appends_witness :
  let h := demo.handlerWith [tasks.OneTime demo.daily] in
  let ts := [tasks.Recurrent demo.ping; tasks.OneTime demo.daily] in
  let schedule := [0; 1; 0; 1; 0; 1; 0; 1; 1; 1; 1; 1]%nat in
  handler.mu h = unlocked
  /\ (exists h',
        handler.AddTask h (tasks.Recurrent demo.ping) = Some h'
        /\ handler.Tasks h' = [tasks.OneTime demo.daily; tasks.Recurrent demo.ping])
  /\ List.length
       (handler.Tasks (fst (handler.interleave h (map handler.AtLock ts) schedule)))
     = 3%nat.
Proof.
  intros h ts schedule.
  pose proof (AddTask_appends (L := demo.lib) h (tasks.Recurrent demo.ping) eq_refl)
    as (Hadd & _ & _ & Hrace & _).
  split; [reflexivity | split].
  - destruct Hadd as (h' & Hadd & Htasks & _).
    exists h'. split; [exact Hadd | exact Htasks].
  - exact (Hrace ts schedule eq_refl).
Defined.

(** * Further properties of the code *)

(** ** NewHTTPClient *)

Section ConstructionMore.
Context {L : GoLib}.
Import types httpclient.

Lemma wrap64_range (z : Z) : - 2 ^ 63 <= wrap64 z < 2 ^ 63.
Proof.
  unfold wrap64.
  pose proof (Z.mod_pos_bound (z + 2 ^ 63) (2 ^ 64) ltac:(lia)) as Hmod.
  lia.
Qed.

(** A client of [NewHTTPClient] is built around some transport, with
    the timeout of the configuration, the zero proxy and no headers. *)
Lemma NewHTTPClient_shape (cfg : types.Proxy) (c : HTTPClient) :
  NewHTTPClient cfg = inl c -> exists transport, c = clientOver transport cfg.
Proof.
  unfold NewHTTPClient. cbv zeta.
  destruct (nonEmpty (Ip cfg) && (Port cfg >? 0));
    [destruct (SocksType cfg =? 5);
       [destruct (nonEmpty (Username cfg) && nonEmpty (Password cfg));
          match goal with
          | |- context [proxy_SOCKS5 ?n ?a ?c] => destruct (proxy_SOCKS5 n a c)
          end
       | destruct (SocksType cfg =? 4)] |];
    intros Hc; try discriminate Hc; injection Hc as <-;
    eexists; reflexivity.
Qed.

(** X1.  The timeout of a client of [NewHTTPClient]: ten seconds when
    [Timeout] is zero or negative; [Timeout] seconds when it is positive
    and at most 9223372036; and for a larger [Timeout] the product
    overflows the 64-bit [time.Duration], so the timeout is not
    [Timeout] seconds. *)
Theorem NewHTTPClient_timeout (cfg : types.Proxy) (c : HTTPClient) :
  NewHTTPClient cfg = inl c ->
  (Timeout cfg <= 0 -> clientTimeout (client c) = 10 * time_Second)
  /\ (0 < Timeout cfg <= 9223372036 ->
      clientTimeout (client c) = Timeout cfg * time_Second)
  /\ (9223372036 < Timeout cfg ->
      clientTimeout (client c) <> Timeout cfg * time_Second).
Proof.
  intros Hc. destruct (NewHTTPClient_shape cfg Hc) as [transport ->].
  simpl. destruct (timeoutOf_seconds cfg) as [Hdefault Hseconds].
  repeat split; try assumption.
  intros Hbig. unfold timeoutOf, time_Second.
  destruct (Z.gtb_spec (Timeout cfg) 0); [| lia].
  pose proof (wrap64_range (Timeout cfg * 1000000000)). lia.
Qed.

(** X2.  Credentials count only when both are given: with an empty
    [Username] or an empty [Password], [NewHTTPClient] returns what it
    returns for the configuration without either. *)
Theorem NewHTTPClient_partial_credentials (cfg : types.Proxy) :
  Username cfg = "" \/ Password cfg = "" ->
  NewHTTPClient cfg = NewHTTPClient (withoutCredentials cfg).
Proof.
  intros Hpartial. unfold NewHTTPClient, withoutCredentials. simpl.
  assert (Hnone : nonEmpty (Username cfg) && nonEmpty (Password cfg) = false).
  { destruct Hpartial as [-> | ->]; simpl; [reflexivity | apply andb_false_r]. }
  rewrite Hnone. reflexivity.
Qed.



End ConstructionMore.

(** ** Requests and bodies *)

Section RequestsMore.
Context {L : GoLib}.
Import types.




(** X8.  [ReadResponseBody] reports an error only for a body that does
    not read to its end.  For a body that does, it returns the empty
    string when [json.Unmarshal] accepts the body and the whole body as
    a string when it does not: a body that is not JSON is no error. *)
Theorem ReadResponseBody_parse_failure_is_no_error {E : GoEnv}
    (resp : Response) (v : Target) :
  let result := fst (httpclient.ReadResponseBody resp v) in
  let parsed := json_Unmarshal (content (Body resp)) v in
  snd result = readError (Body resp)
  /\ (readError (Body resp) <> None ->
        fst result = "" /\ snd (httpclient.ReadResponseBody resp v) = v)
  /\ (readError (Body resp) = None ->
        snd (httpclient.ReadResponseBody resp v) = fst parsed
        /\ (snd parsed = None -> fst result = "")
        /\ (snd parsed <> None -> fst result = content (Body resp))).
Proof.
  intros result parsed. subst result parsed.
  unfold httpclient.ReadResponseBody, io_ReadAll.
  destruct (readError (Body resp)) as [err |]; simpl.
  - repeat split; intros; congruence.
  - destruct (json_Unmarshal (content (Body resp)) v) as [v' [err |]]; simpl;
      repeat split; intros; congruence.
Qed.

End RequestsMore.

(** ** Run and the retry sequence *)

Section RunningMore.
Context {L : GoLib}.
Import types.

(** [Run] on any handler, in full. *)
Lemma Run_exact {H : Type} {HH : tasks.Handler H}
    (task : tasks.Task) (account : Account) (handler : H) (w : World) :
  tasks.Run task account handler w =
    match json_Marshal (payloadOf task) with
    | inr cause =>
        (Some (wrapError (marshalMessage task (Error cause)) cause),
         printing w (runningLine task account))
    | inl data =>
        let posted :=
          tasks.Post handler (tasks.GetBaseURL handler) (slice data)
            (printing w (runningLine task account)) in
        match snd (fst posted) with
        | Some cause =>
            (Some (wrapError (executeMessage task account (Error cause)) cause),
             snd posted)
        | None =>
            (None, printing (snd posted)
                     (executedLine task account (fst (fst posted))))
        end
    end.
Proof.
  destruct task as [t | t];
    unfold tasks.Run, tasks.OneTimeTask_Run, tasks.RecurrentTask_Run,
      bind, Printf, payloadOf, printing, runningLine, executedLine;
    cbv zeta;
    match goal with
    | |- context [json_Marshal ?p] => destruct (json_Marshal p) as [data | cause]
    end; try reflexivity;
    match goal with
    | |- context [tasks.Post ?h ?u ?b ?w0] =>
        destruct (tasks.Post h u b w0) as [[response [cause |]] w1]
    end; reflexivity.
Qed.

(** X9.  An error of [Run] wraps its cause, which [errors.Unwrap]
    gives back: the error of [json.Marshal], under a message that names
    the task, or the error of the handler's [Post], under a message that
    names the task and the account; either message ends with the message
    of the cause. *)
Theorem Run_error_wraps_cause {H : Type} {HH : tasks.Handler H}
    (task : tasks.Task) (account : Account) (handler : H) (w : World)
    (err : error) :
  fst (tasks.Run task account handler w) = Some err ->
  exists cause,
    errors_Unwrap err = Some cause
    /\ ((json_Marshal (payloadOf task) = inr cause
         /\ Error err = marshalMessage task (Error cause))
        \/ (exists data,
              json_Marshal (payloadOf task) = inl data
              /\ snd (fst (tasks.Post handler (tasks.GetBaseURL handler) (slice data)
                             (printing w (runningLine task account)))) = Some cause
              /\ Error err = executeMessage task account (Error cause))).
Proof.
  rewrite Run_exact.
  destruct (json_Marshal (payloadOf task)) as [data | cause].
  - cbv zeta.
    destruct (snd (fst (tasks.Post handler (tasks.GetBaseURL handler) (slice data)
                          (printing w (runningLine task account))))) as [cause |] eqn:Hpost;
      simpl; intros Herr; [| discriminate Herr].
    injection Herr as <-. exists cause. split; [reflexivity |].
    right. exists data. repeat split. exact Hpost.
  - simpl. intros Herr. injection Herr as <-. exists cause.
    split; [reflexivity |]. left. split; reflexivity.
Qed.

(** X10.  When the answer to the POST of a task has a status outside
    [200, 300), the error of [Run] on a game handler carries the text of
    the response body: its message is "failed to execute <kind> task
    '<name>' for account <id>: " followed by the body, and it wraps the
    error of the transport. *)
Theorem Run_reports_response_body (task : tasks.Task) (account : Account)
    (h : handler.GameHandler) (w : World) (data : string) (resp : Response) :
  let c := handler.HttpClient h in
  let url := handler.GetBaseURL h in
  json_Marshal (payloadOf task) = inl data ->
  http_NewRequest_error http_MethodPost url = None ->
  answer w (httpclient.client c) (requestOf c http_MethodPost url (slice data))
  = inl resp ->
  StatusCode resp < 200 \/ 300 <= StatusCode resp ->
  exists err,
    fst (tasks.Run task account h w) = Some err
    /\ Error err = executeMessage task account (content (Body resp))
    /\ errors_Unwrap err = Some (errors_New (content (Body resp))).
Proof.
  intros c url Henc Hreq Hans Hout.
  rewrite Run_exact, Henc. cbv zeta.
  change (tasks.Post h (tasks.GetBaseURL h)) with (handler.Post h url).
  rewrite handler_Post_bodyOf. unfold httpclient.Post.
  rewrite (DoRequest_sent (handler.HttpClient h) http_MethodPost url (slice data)
             _ Hreq).
  cbv zeta. simpl fst. fold c. unfold answer in Hans |- *.
  simpl network. simpl wire. rewrite Hans.
  assert (Hnot : is2xx (StatusCode resp) = false).
  { unfold is2xx. apply andb_false_iff.
    destruct Hout; [left | right]; lia. }
  rewrite Hnot. simpl. eexists. repeat split.
Qed.



(** X11.  When the first [Run] succeeds, [runTaskWithRetry] is that
    [Run] and nothing more: no refresh call and no second [Run]. *)
Theorem runTaskWithRetry_first_run_succeeds (h : handler.GameHandler)
    (account : Account) (task : tasks.Task) (w : World) :
  fst (tasks.Run task account h w) = None ->
  handler.runTaskWithRetry h account task w = tasks.Run task account h w.
Proof.
  intros Hfirst. rewrite runTaskWithRetry_steps, Hfirst.
  destruct (tasks.Run task account h w) as [result w1]. simpl in Hfirst.
  subst result. reflexivity.
Qed.

(** A call of [runTaskWithRetry] starts one run or two. *)
Lemma runTaskWithRetry_runs (h : handler.GameHandler)
    (account : Account) (task : tasks.Task) (w : World) :
  let w' := snd (handler.runTaskWithRetry h account task w) in
  (runsStarted (printed w) + 1 <= runsStarted (printed w')
   <= runsStarted (printed w) + 2)%nat.
Proof.
  intros w'. subst w'. rewrite runTaskWithRetry_steps.
  pose proof (Run_runsStarted task account h w) as Hrun1.
  destruct (fst (tasks.Run task account h w)) as [err |]; [| simpl snd; lia].
  cbv zeta.
  set (w1 := snd (tasks.Run task account h w)) in *.
  destruct (refreshFor_frame h account w1) as [Hprinted2 _].
  destruct (notNil (fst (fst (refreshFor h account w1)))); simpl snd.
  - rewrite Hprinted2. lia.
  - rewrite Run_runsStarted, Hprinted2. lia.
Qed.


End RunningMore.

(** ** RunTasks, further *)

Section SchedulingMore.
Context {L : GoLib}.
Import types.

Lemma map_replace {A B : Type} (f : A -> B) (i : nat) (x y : A) (l : list A) :
  nth_error l i = Some y -> f x = f y -> map f (replace i x l) = map f l.
Proof.
  intros Hnth Hf. revert i Hnth.
  induction l as [| z l IH]; intros i Hnth; destruct i as [| i];
    simpl in Hnth; try discriminate Hnth; simpl.
  - injection Hnth as ->. now rewrite Hf.
  - now rewrite (IH i Hnth).
Qed.

(** A step keeps the account of a goroutine. *)
Lemma step_accountOf (h : handler.GameHandler) (g : handler.Goroutine) (w : World) :
  handler.accountOf (fst (handler.step h g w)) = handler.accountOf g.
Proof.
  destruct g as [account [| [t | t] rest] | account t rest | account | account].
  - reflexivity.
  - rewrite step_oneTime. reflexivity.
  - simpl. destruct (tasks.Interval t <=? 0); reflexivity.
  - rewrite step_tick. reflexivity.
  - reflexivity.
  - reflexivity.
Qed.

(** X13.  [RunTasks] runs one goroutine for each account, in the order
    of [handler.Accounts], and under every schedule the goroutines stay
    those of the accounts: none is added, lost or handed another
    account. *)
Theorem RunTasks_one_goroutine_per_account (h : handler.GameHandler)
    (schedule : list nat) (w : World) :
  map handler.accountOf (fst (handler.RunTasks h schedule w))
  = handler.Accounts h.
Proof.
  unfold handler.RunTasks.
  assert (Hrun : forall gs w0,
    map handler.accountOf (fst (handler.run h schedule gs w0))
    = map handler.accountOf gs).
  { induction schedule as [| i schedule IH]; intros gs w0; simpl; [reflexivity |].
    destruct (existsb handler.isPanicked gs); [reflexivity |].
    destruct (nth_error gs i) as [g |] eqn:Hnth; [| apply IH].
    unfold bind. pose proof (step_accountOf h g w0) as Hstep.
    destruct (handler.step h g w0) as [g' w1]. simpl in Hstep.
    rewrite IH. apply (@map_replace _ _ handler.accountOf i g' g gs Hnth Hstep). }
  rewrite Hrun. unfold handler.spawn. rewrite map_map. simpl. apply map_id.
Qed.



(** A property of goroutines that steps keep without touching the
    world carries over to every schedule, which leaves the world as it
    is. *)
Lemma run_quiet (h : handler.GameHandler) (I : handler.Goroutine -> Prop) :
  (forall g w, I g ->
     I (fst (handler.step h g w)) /\ snd (handler.step h g w) = w) ->
  forall schedule gs w,
    Forall I gs ->
    Forall I (fst (handler.run h schedule gs w))
    /\ snd (handler.run h schedule gs w) = w.
Proof.
  intros Hstep. induction schedule as [| i schedule IH]; intros gs w Hgs; simpl.
  - split; [exact Hgs | reflexivity].
  - destruct (existsb handler.isPanicked gs).
    + split; [exact Hgs | reflexivity].
    + destruct (nth_error gs i) as [g |] eqn:Hnth; [| apply IH; exact Hgs].
      unfold bind.
      assert (Hg : I g).
      { apply nth_error_In in Hnth.
        rewrite Forall_forall in Hgs. apply Hgs. exact Hnth. }
      destruct (Hstep g w Hg) as [Hg' Hw].
      destruct (handler.step h g w) as [g' w1]. simpl in Hg', Hw. subst w1.
      apply IH. apply Forall_replace; assumption.
Qed.

(** X15.  Without accounts [RunTasks] starts no goroutine: whatever the
    tasks, recurrent ones among them, [wg.Wait()] returns at once and
    nothing is sent or printed. *)
Theorem RunTasks_without_accounts (h : handler.GameHandler)
    (schedule : list nat) (w : World) :
  handler.Accounts h = [] ->
  handler.RunTasks h schedule w = ([], w)
  /\ handler.waitReturns (fst (handler.RunTasks h schedule w)) = true.
Proof.
  intros Hnone. unfold handler.RunTasks, handler.spawn. rewrite Hnone. simpl map.
  assert (Hrun : handler.run h schedule [] w = ([], w)).
  { induction schedule as [| i schedule IH]; simpl; [reflexivity |].
    destruct i; simpl; exact IH. }
  rewrite Hrun. split; reflexivity.
Qed.

(** A goroutine with one-time tasks only ahead, given a step for each
    task and one more, returns, having started a run or two for each
    task. *)
Lemma run_to_return_counted (h : handler.GameHandler) (ts : list tasks.Task) :
  allOneTime ts = true ->
  forall (done rest : list handler.Goroutine) (account : Account)
         (schedule : list nat) (w : World),
    existsb handler.isPanicked (done ++ handler.Ranging account ts :: rest) = false ->
    exists w',
      handler.run h (repeat (List.length done) (S (List.length ts)) ++ schedule)
        (done ++ handler.Ranging account ts :: rest) w
      = handler.run h schedule (done ++ handler.Returned account :: rest) w'
      /\ (runsStarted (printed w) + List.length ts <= runsStarted (printed w')
          <= runsStarted (printed w) + 2 * List.length ts)%nat.
Proof.
  induction ts as [| task ts IH]; intros Hall done rest account schedule w Hcalm.
  - exists w. simpl repeat. simpl app. cbn [handler.run].
    rewrite Hcalm, nth_error_middle. unfold bind. simpl handler.step.
    unfold ret. rewrite replace_middle. split; [reflexivity | simpl; lia].
  - simpl in Hall. apply andb_true_iff in Hall. destruct Hall as [Htask Hall].
    destruct task as [t | t]; [| discriminate Htask].
    change (repeat (List.length done) (S (List.length (tasks.OneTime t :: ts)))
              ++ schedule)%list
      with (List.length done
              :: (repeat (List.length done) (S (List.length ts)) ++ schedule))%list.
    cbn [handler.run]. rewrite Hcalm, nth_error_middle. unfold bind.
    rewrite step_oneTime, replace_middle.
    pose proof (runTaskWithRetry_runs h account (tasks.OneTime t) w) as Hruns.
    cbv zeta in Hruns.
    destruct (IH Hall done rest account schedule
                (snd (handler.runTaskWithRetry h account (tasks.OneTime t) w)))
      as (w' & Hrun & Hcount).
    { rewrite existsb_middle in Hcalm |- *. exact Hcalm. }
    exists w'. split; [exact Hrun |]. simpl List.length. lia.
Qed.

(** Goroutines with one-time tasks only ahead, each given its steps in
    turn, all return, having started a run or two for each task. *)
Lemma run_all_return_counted (h : handler.GameHandler) (ts : list tasks.Task)
    (accounts : list Account) :
  allOneTime ts = true ->
  forall (done : list handler.Goroutine) (w : World),
    existsb handler.isPanicked done = false ->
    exists w',
      handler.run h
        (eachInTurn (S (List.length ts)) (List.length done) (List.length accounts))
        (done ++ map (fun account => handler.Ranging account ts) accounts) w
      = ((done ++ map handler.Returned accounts)%list, w')
      /\ (runsStarted (printed w) + List.length accounts * List.length ts
          <= runsStarted (printed w')
          <= runsStarted (printed w) + 2 * (List.length accounts * List.length ts))%nat.
Proof.
  intros Hall. induction accounts as [| account accounts IH]; intros done w Hcalm.
  - exists w. split; [reflexivity | simpl; lia].
  - unfold eachInTurn. cbn [seq flat_map map List.length].
    fold (eachInTurn (S (List.length ts)) (S (List.length done))
            (List.length accounts)).
    assert (Hcalm' :
      existsb handler.isPanicked
        (done ++ handler.Ranging account ts
              :: map (fun account => handler.Ranging account ts) accounts) = false).
    { rewrite existsb_middle, Hcalm. simpl.
      clear. induction accounts as [| a accounts IHa]; simpl; [reflexivity | exact IHa]. }
    destruct (@run_to_return_counted h ts Hall done
                (map (fun account => handler.Ranging account ts) accounts)
                account
                (eachInTurn (S (List.length ts)) (S (List.length done))
                   (List.length accounts)) w Hcalm') as (w1 & Hrun & Hcount1).
    rewrite Hrun.
    replace (done ++ handler.Returned account
                  :: map (fun account => handler.Ranging account ts) accounts)%list
      with ((done ++ [handler.Returned account])
              ++ map (fun account => handler.Ranging account ts) accounts)%list
      by (rewrite <- app_assoc; reflexivity).
    replace (S (List.length done))
      with (List.length (done ++ [handler.Returned account]))
      by (rewrite length_app; simpl; lia).
    destruct (IH (done ++ [handler.Returned account])%list w1)
      as (w' & Hrest & Hcount).
    { rewrite existsb_app, Hcalm. reflexivity. }
    exists w'. rewrite Hrest, <- app_assoc. split; [reflexivity |].
    rewrite Nat.mul_succ_l. lia.
Qed.

(** X16.  With one-time tasks only, [RunTasks] comes to its end: under
    the schedule that gives each goroutine in turn a step for every task
    and one more, [wg.Wait()] returns, and by then every task has been
    run for every account, once or twice each. *)
Theorem RunTasks_one_time_tasks_complete (h : handler.GameHandler) (w : World) :
  allOneTime (handler.Tasks h) = true ->
  let tasksCount := List.length (handler.Tasks h) in
  let accountsCount := List.length (handler.Accounts h) in
  let after := handler.RunTasks h (eachInTurn (S tasksCount) 0 accountsCount) w in
  handler.waitReturns (fst after) = true
  /\ (runsStarted (printed w) + accountsCount * tasksCount
      <= runsStarted (printed (snd after))
      <= runsStarted (printed w) + 2 * (accountsCount * tasksCount))%nat.
Proof.
  intros Hall tasksCount accountsCount after. subst after tasksCount accountsCount.
  unfold handler.RunTasks, handler.spawn.
  destruct (@run_all_return_counted h (handler.Tasks h) (handler.Accounts h) Hall
              [] w eq_refl) as (w' & Hrun & Hcount).
  simpl in Hrun. rewrite Hrun. simpl fst. simpl snd. split; [| exact Hcount].
  unfold handler.waitReturns. clear Hrun Hcount.
  induction (handler.Accounts h) as [| a accounts IHa]; simpl; [reflexivity | exact IHa].
Qed.


(** X18.  With an empty task list [RunTasks] sends and prints nothing,
    under every schedule, and no goroutine panics or waits on a ticker;
    under the schedule that gives each goroutine one step, the
    goroutines all return. *)
Theorem RunTasks_without_tasks (h : handler.GameHandler)
    (schedule : list nat) (w : World) :
  handler.Tasks h = [] ->
  snd (handler.RunTasks h schedule w) = w
  /\ Forall idle (fst (handler.RunTasks h schedule w))
  /\ handler.waitReturns
       (fst (handler.RunTasks h
               (eachInTurn 1 0 (List.length (handler.Accounts h))) w)) = true.
Proof.
  intros Htasks.
  assert (Hquiet : forall schedule0,
    Forall idle (fst (handler.RunTasks h schedule0 w))
    /\ snd (handler.RunTasks h schedule0 w) = w).
  { intros schedule0. unfold handler.RunTasks.
    apply (@run_quiet h idle).
    - intros g w0 Hg.
      destruct g as [account [| task rest] | account t rest | account | account];
        simpl in Hg; try contradiction; split; simpl; trivial.
    - unfold handler.spawn. apply Forall_forall. intros g Hg.
      apply in_map_iff in Hg. destruct Hg as (account & <- & _).
      rewrite Htasks. simpl. trivial. }
  split; [apply Hquiet | split; [apply Hquiet |]].
  unfold handler.RunTasks, handler.spawn.
  destruct (@run_all_return_counted h (handler.Tasks h) (handler.Accounts h))
    with (done := @nil handler.Goroutine) (w := w) as (w' & Hrun & _).
  - rewrite Htasks. reflexivity.
  - reflexivity.
  - rewrite Htasks in Hrun. simpl in Hrun. rewrite Htasks. rewrite Hrun. simpl.
    unfold handler.waitReturns. clear.
    induction (handler.Accounts h) as [| a accounts IHa]; simpl;
      [reflexivity | exact IHa].
Qed.

End SchedulingMore.

(** ** AddTask, further *)

Section AddingMore.
Context {L : GoLib}.

(** A statement of a call only ever appends to the task list, and
    leaves the other fields of the handler, the mutex apart, as they
    are. *)
Lemma advance_extends (n : nat) (h h' : handler.GameHandler)
    (calls : list handler.AddTaskCall) (i : nat) (c c' : handler.AddTaskCall) :
  serialized n h calls ->
  nth_error calls i = Some c ->
  handler.advance h c = Some (h', c') ->
  (exists more, handler.Tasks h' = (handler.Tasks h ++ more)%list)
  /\ handler.BaseURL h' = handler.BaseURL h
  /\ handler.Accounts h' = handler.Accounts h.
Proof.
  intros (_ & _ & Hread) Hnth Hadv.
  assert (Hc : readsCurrent h c).
  { rewrite Forall_forall in Hread. apply Hread.
    eapply nth_error_In. exact Hnth. }
  destruct c as [task | task | task old | |]; simpl in Hadv.
  - destruct (handler.mu h); simpl in Hadv; [| discriminate Hadv].
    injection Hadv as <- <-. simpl. repeat split.
    exists []. symmetry. apply app_nil_r.
  - injection Hadv as <- <-. repeat split.
    exists []. symmetry. apply app_nil_r.
  - injection Hadv as <- <-. simpl in Hc. subst old. simpl. repeat split.
    exists [task]. reflexivity.
  - destruct (handler.mu h); simpl in Hadv; [discriminate Hadv |].
    injection Hadv as <- <-. simpl. repeat split.
    exists []. symmetry. apply app_nil_r.
  - discriminate Hadv.
Qed.

Lemma interleave_extends (n : nat) (schedule : list nat) :
  forall (h : handler.GameHandler) (calls : list handler.AddTaskCall),
    serialized n h calls ->
    (exists added,
       handler.Tasks (fst (handler.interleave h calls schedule))
       = (handler.Tasks h ++ added)%list)
    /\ handler.BaseURL (fst (handler.interleave h calls schedule))
       = handler.BaseURL h
    /\ handler.Accounts (fst (handler.interleave h calls schedule))
       = handler.Accounts h.
Proof.
  induction schedule as [| i schedule IH]; intros h calls Hser; simpl.
  - repeat split. exists []. symmetry. apply app_nil_r.
  - destruct (nth_error calls i) as [c |] eqn:Hnth; [| apply IH; exact Hser].
    destruct (handler.advance h c) as [[h' c'] |] eqn:Hadv; [| apply IH; exact Hser].
    destruct (@advance_extends n h h' calls i c c' Hser Hnth Hadv)
      as ([more Hmore] & Hurl & Hacc).
    destruct (IH h' (replace i c' calls)
                (@advance_serialized _ n h h' calls i c c' Hser Hnth Hadv))
      as ([added Hadded] & Hurl' & Hacc').
    repeat split; try congruence.
    exists (more ++ added)%list. rewrite Hadded, Hmore, app_assoc. reflexivity.
Qed.

(** X19.  While calls of [AddTask] started together on a handler with a
    free mutex run, however their statements are interleaved: at most
    one call is between its [Lock] and its [Unlock]; the task list is
    the list at the start followed by one task for each call that has
    made its assignment, so nothing stored is lost or moved; and the
    base URL and the accounts are untouched. *)
Theorem AddTask_calls_exclude_each_other (h : handler.GameHandler)
    (ts : list tasks.Task) (schedule : list nat) :
  handler.mu h = unlocked ->
  let after := handler.interleave h (map handler.AtLock ts) schedule in
  (countIf holdsMutex (snd after) <= 1)%nat
  /\ (exists added,
        handler.Tasks (fst after) = (handler.Tasks h ++ added)%list
        /\ List.length added = countIf hasAppended (snd after))
  /\ handler.BaseURL (fst after) = handler.BaseURL h
  /\ handler.Accounts (fst after) = handler.Accounts h.
Proof.
  intros Hmu after. subst after.
  pose proof (@serialized_start _ h ts Hmu) as Hstart.
  destruct (@interleave_serialized _ _ schedule h (map handler.AtLock ts) Hstart)
    as [(Hlen & Hheld & _) _].
  destruct (@interleave_extends _ schedule h (map handler.AtLock ts) Hstart)
    as ([added Hadded] & Hurl & Hacc).
  split; [| split; [| split; assumption]].
  - rewrite Hheld.
    destruct (handler.mu (fst (handler.interleave h (map handler.AtLock ts) schedule)));
      lia.
  - exists added. split; [exact Hadded |].
    rewrite Hadded, length_app in Hlen. lia.
Qed.

End AddingMore.

(** ** NewGameHandler and the logger *)

Section Starting.
Context {L : GoLib} {E : GoEnv}.
Import types.

(** X20.  A handler that [NewGameHandler] returns has the proxy and the
    API key of the configuration file, the accounts of the accounts
    file and the client [NewHTTPClient] builds for that proxy; its base
    URL and its game name are empty, it has no task, and its mutex is
    free. *)
Theorem NewGameHandler_fresh_handler (configPath gameDataPath : string)
    (h : handler.GameHandler) :
  handler.NewGameHandler configPath gameDataPath = inl h ->
  handler.LoadConfig configPath
  = (mkConfig (handler.Proxy h) (handler.APIKey h), None)
  /\ handler.LoadAccounts gameDataPath = (handler.Accounts h, None)
  /\ httpclient.NewHTTPClient (handler.Proxy h) = inl (handler.HttpClient h)
  /\ handler.BaseURL h = ""
  /\ handler.GameName h = ""
  /\ handler.Tasks h = []
  /\ handler.mu h = unlocked.
Proof.
  unfold handler.NewGameHandler.
  destruct (handler.LoadConfig configPath) as [[configProxy apiKey] [err |]];
    [discriminate |].
  destruct (handler.LoadAccounts gameDataPath) as [accounts [err |]];
    [discriminate |].
  simpl ConfigProxy. simpl ConfigAPIKey.
  destruct (httpclient.NewHTTPClient configProxy) as [httpClient | err] eqn:Hclient;
    [| discriminate].
  intros Hh. injection Hh as <-. simpl. repeat split. exact Hclient.
Qed.

(** X21.  [NewGameHandler] fails with the first error met, returned as
    it is: the error of loading the configuration, a file that cannot be
    opened included, whatever the accounts file is; else the error of
    loading the accounts; else the error of [NewHTTPClient] for the
    proxy of the configuration. *)
Theorem NewGameHandler_first_error (configPath gameDataPath : string) :
  (forall err, os_Open configPath = inr err ->
     handler.NewGameHandler configPath gameDataPath = inr err)
  /\ (forall err, snd (handler.LoadConfig configPath) = Some err ->
        handler.NewGameHandler configPath gameDataPath = inr err)
  /\ (snd (handler.LoadConfig configPath) = None ->
      forall err, snd (handler.LoadAccounts gameDataPath) = Some err ->
        handler.NewGameHandler configPath gameDataPath = inr err)
  /\ (snd (handler.LoadConfig configPath) = None ->
      snd (handler.LoadAccounts gameDataPath) = None ->
      forall err,
        httpclient.NewHTTPClient
          (ConfigProxy (fst (handler.LoadConfig configPath))) = inr err ->
        handler.NewGameHandler configPath gameDataPath = inr err).
Proof.
  unfold handler.NewGameHandler. split; [| split; [| split]].
  - intros err Hopen. unfold handler.LoadConfig. rewrite Hopen. reflexivity.
  - intros err Hconfig.
    destruct (handler.LoadConfig configPath) as [config e]. simpl in Hconfig.
    subst e. reflexivity.
  - intros Hconfig err Haccounts.
    destruct (handler.LoadConfig configPath) as [config e]. simpl in Hconfig.
    subst e.
    destruct (handler.LoadAccounts gameDataPath) as [accounts e].
    simpl in Haccounts. subst e. reflexivity.
  - intros Hconfig Haccounts err Hclient.
    destruct (handler.LoadConfig configPath) as [config e]. simpl in Hconfig.
    subst e.
    destruct (handler.LoadAccounts gameDataPath) as [accounts e].
    simpl in Haccounts. subst e. simpl in Hclient. rewrite Hclient. reflexivity.
Qed.

(** X22.  A logger set by [InitLogger] survives any number of calls of
    [DefaultInit], which never replaces a logger that is set; and after
    [DefaultInit] the logger is nil exactly when it was nil before and
    [zap.NewProduction] failed. *)
Theorem DefaultInit_keeps_logger (logger : option Logger) :
  (forall log n,
     utils.GetLogger
       (Nat.iter n utils.DefaultInit (utils.InitLogger (Some log) logger))
     = Some log)
  /\ (utils.GetLogger (utils.DefaultInit logger) = None
      <-> logger = None /\ exists err, zap_NewProduction = inr err).
Proof.
  unfold utils.GetLogger, utils.InitLogger.
  split.
  - intros log n. induction n as [| n IH]; simpl; [reflexivity |].
    rewrite IH. reflexivity.
  - unfold utils.DefaultInit. destruct logger as [log |].
    + split; [discriminate | intros [Hnone _]; discriminate Hnone].
    + destruct zap_NewProduction as [log | err].
      * split; [discriminate | intros [_ [err Herr]]; discriminate Herr].
      * split; [intros _; split; [reflexivity | exists err; reflexivity]
               | reflexivity].
Qed.

End Starting.

(** ** The further properties at concrete inputs *)

(** X1 at a direct client with a timeout of thirty seconds. *)
Lemma NewHTTPClient_timeout_witness :
  let cfg := types.mkProxy "" 0 "" "" 0 30 in
  exists c,
    httpclient.NewHTTPClient (L := demo.lib) cfg = inl c
    /\ clientTimeout (httpclient.client c) = 30000000000.
Proof.
  intros cfg.
  exists (httpclient.mkHTTPClient (mkClient directTransport 30000000000)
            types.zeroProxy []).
  split; [reflexivity |].
  refine (proj1 (proj2 (@NewHTTPClient_timeout demo.lib cfg _ eq_refl)) _).
  simpl. lia.
Defined.

(** X2 at a configuration with a user name and no password. *)
Lemma NewHTTPClient_partial_credentials_witness :
  let cfg := types.mkProxy "10.0.0.1" 1080 "user" "" 5 0 in
  httpclient.NewHTTPClient (L := demo.lib) cfg
  = httpclient.NewHTTPClient (L := demo.lib)
      (types.mkProxy "10.0.0.1" 1080 "" "" 5 0).
Proof.
  intros cfg.
  exact (@NewHTTPClient_partial_credentials demo.lib cfg (or_intror eq_refl)).
Defined.






(** X8 at a body that is not JSON. *)
Lemma ReadResponseBody_parse_failure_is_no_error_witness :
  fst (httpclient.ReadResponseBody (E := demo.env)
         (mkResponse 200 (mkReadCloser "not json" None)) "before")
  = ("not json", None).
Proof.
  pose proof (@ReadResponseBody_parse_failure_is_no_error demo.env
                (mkResponse 200 (mkReadCloser "not json" None)) "before")
    as (Herr & _ & Hread).
  destruct (Hread eq_refl) as (_ & _ & Htext).
  reflexivity.
Defined.

(** X9 at a task whose payload cannot be encoded. *)
Lemma Run_error_wraps_cause_witness :
  let task := tasks.OneTime (tasks.NewOneTimeTask (L := demo.lib) "broken"
                               (inr (errorString "unsupported type"))) in
  exists err,
    fst (tasks.Run task demo.account (demo.handlerWith []) (demo.worldOf [])) = Some err
    /\ errors_Unwrap err = Some (errorString "unsupported type").
Proof.
  intros task. eexists. split; [reflexivity |].
  destruct (@Run_error_wraps_cause demo.lib _ _ task demo.account
              (demo.handlerWith []) (demo.worldOf []) _ eq_refl)
    as (cause & Hunwrap & _).
  reflexivity.
Defined.

(** X10 at a POST answered with status 403. *)
Lemma Run_reports_response_body_witness :
  exists err,
    fst (tasks.Run (tasks.OneTime demo.daily) demo.account
           (demo.handlerWith []) (demo.worldOf [demo.status 403 "forbidden"]))
    = Some err
    /\ Error err
       = "failed to execute one-time task 'daily' for account 987654321: forbidden".
Proof.
  destruct (@Run_reports_response_body demo.lib (tasks.OneTime demo.daily)
              demo.account (demo.handlerWith [])
              (demo.worldOf [demo.status 403 "forbidden"]) "{}"
              (mkResponse 403 (mkReadCloser "forbidden" None))
              eq_refl eq_refl eq_refl)
    as (err & Hrun & Hmsg & _).
  - right. simpl. lia.
  - exists err. split; [exact Hrun | exact Hmsg].
Defined.

(** X11 at a POST answered with status 200. *)
Lemma runTaskWithRetry_first_run_succeeds_witness :
  let h := demo.handlerWith [] in
  let w := demo.worldOf [demo.ok "done"] in
  handler.runTaskWithRetry h demo.account (tasks.OneTime demo.daily) w
  = tasks.Run (tasks.OneTime demo.daily) demo.account h w.
Proof.
  intros h w.
  exact (@runTaskWithRetry_first_run_succeeds demo.lib h demo.account
           (tasks.OneTime demo.daily) w eq_refl).
Defined.

(** X15 at a handler with a recurrent task and no account. *)
Lemma RunTasks_without_accounts_witness :
  let h := handler.mkGameHandler "game" demo.gameURL types.zeroProxy "key" []
             [tasks.Recurrent demo.ping] demo.directClient unlocked in
  let w := demo.worldOf [] in
  handler.RunTasks h [0; 1; 0]%nat w = ([], w).
Proof.
  intros h w.
  exact (proj1 (@RunTasks_without_accounts demo.lib h [0; 1; 0]%nat w eq_refl)).
Defined.

(** X16 at one account and two one-time tasks. *)
Lemma RunTasks_one_time_tasks_complete_witness :
  let h := demo.handlerWith [tasks.OneTime demo.daily; tasks.OneTime demo.daily] in
  let w := demo.worldOf [demo.ok "a"; demo.ok "b"] in
  handler.waitReturns (fst (handler.RunTasks h [0; 0; 0]%nat w)) = true.
Proof.
  intros h w.
  exact (proj1 (@RunTasks_one_time_tasks_complete demo.lib h w eq_refl)).
Defined.


(** X18 at a handler with one account and no task. *)
Lemma RunTasks_without_tasks_witness :
  let h := demo.handlerWith [] in
  let w := demo.worldOf [demo.ok "a"] in
  snd (handler.RunTasks h [0; 0]%nat w) = w
  /\ handler.waitReturns (fst (handler.RunTasks h [0]%nat w)) = true.
Proof.
  intros h w.
  pose proof (@RunTasks_without_tasks demo.lib h [0; 0]%nat w eq_refl)
    as (Hworld & _ & Hreturns).
  split; [exact Hworld | exact Hreturns].
Defined.

(** X19 at two calls, the first of which holds the mutex while the
    second waits. *)
Lemma AddTask_calls_exclude_each_other_witness :
  let h := demo.handlerWith [tasks.OneTime demo.daily] in
  let ts := [tasks.Recurrent demo.ping; tasks.OneTime demo.daily] in
  handler.mu h = unlocked
  /\ (countIf holdsMutex
        (snd (handler.interleave h (map handler.AtLock ts) [0; 1; 0; 1]%nat))
      <= 1)%nat.
Proof.
  intros h ts. split; [reflexivity |].
  exact (proj1 (@AddTask_calls_exclude_each_other demo.lib h ts [0; 1; 0; 1]%nat
                  eq_refl)).
Defined.

(** X20 at the two files of [demo.env]. *)
Lemma NewGameHandler_fresh_handler_witness :
  exists h,
    handler.NewGameHandler (L := demo.lib) (E := demo.env)
      "config.json" "accounts.json" = inl h
    /\ handler.Accounts h = [demo.account]
    /\ handler.Tasks h = []
    /\ handler.BaseURL h = "".
Proof.
  eexists. split; [reflexivity |].
  pose proof (@NewGameHandler_fresh_handler demo.lib demo.env
                "config.json" "accounts.json" _ eq_refl)
    as (_ & _ & _ & Hurl & _ & Htasks & _).
  split; [reflexivity | split; [exact Htasks | exact Hurl]].
Defined.

(** X21 at a configuration file that does not exist. *)
Lemma NewGameHandler_first_error_witness :
  handler.NewGameHandler (L := demo.lib) (E := demo.env)
    "missing.json" "accounts.json"
  = inr (errorString "open missing.json: no such file or directory").
Proof.
  exact (proj1 (@NewGameHandler_first_error demo.lib demo.env
                  "missing.json" "accounts.json") _ eq_refl).
Defined.

(** X22 at a logger that is set, and at none. *)
Lemma DefaultInit_keeps_logger_witness :
  utils.DefaultInit (E := demo.env)
    (utils.DefaultInit (E := demo.env)
       (utils.InitLogger (E := demo.env) (Some "mine") None)) = Some "mine"
  /\ utils.DefaultInit (E := demo.env) None <> None.
Proof.
  pose proof (@DefaultInit_keeps_logger demo.env None) as [Hkeeps Hnil].
  split.
  - exact (Hkeeps "mine" 2%nat).
  - intros Hnone. apply Hnil in Hnone. destruct Hnone as [_ [err Herr]].
    discriminate Herr.
Defined.
